(** * Perfume AI Agent API: a shallow embedding of [main.py] and [schemas.py]

    The request handlers of [main.py] are embedded as functions in a small
    state-and-exception monad over the document store, and the properties of
    the checkout, lead intake, seeding and diagnostics workflows are proved
    about them. *)

From stdpp Require Import base option list gmap strings pretty.
From Stdlib Require Import ZArith Ascii String Lia.

Local Open Scope string_scope.
Local Open Scope list_scope.
Local Open Scope Z_scope.
Local Open Scope stdpp_scope.

(** ** Python run-time values and exceptions *)

Module Py.

(** The values a stored document (a [dict] read back from the store) can
    hold in a field.  [VOid] is a store identifier ([ObjectId]). *)
#[warnings="-register-all"]
Inductive value : Type :=
| VNone
| VBool (b : bool)
| VInt (n : Z)
| VStr (s : string)
| VOid (hex : string)
| VList (l : list value).

(** A document is a Python [dict] with string keys. *)
Abbreviation Doc := (gmap string value).

Inductive exn_class : Type :=
| JSONDecodeError
| ValueError
| TypeError
| KeyError
| ImportError
| ValidationError
| StoreError
| OtherError.

(** Every class above derives from [Exception]; so does [HTTPException]. *)
Inductive exn : Type :=
| HTTPException (status_code : Z) (detail : string)
| PyErr (cls : exn_class) (msg : string).

(** [str(e)] *)
Definition exn_str (e : exn) : string :=
  match e with
  | HTTPException c d => pretty c +:+ ": " +:+ d
  | PyErr _ msg => msg
  end.

Definition is_JSONDecodeError (e : exn) : bool :=
  match e with
  | PyErr JSONDecodeError _ => true
  | _ => false
  end.

(** The outcome of evaluating an expression: a value or a raised exception. *)
Inductive result (A : Type) : Type :=
| Ok (a : A)
| Raise (e : exn).
Arguments Ok {A} a.
Arguments Raise {A} e.

#[global] Instance result_ret : MRet result := λ A a, Ok a.
#[global] Instance result_bind : MBind result := λ A B f r,
  match r with
  | Ok a => f a
  | Raise e => Raise e
  end.

(** [try: body / except <class>: handler], for the exceptions [catches]
    selects. *)
Definition try_except {A} (body : result A) (catches : exn → bool)
    (handler : exn → result A) : result A :=
  match body with
  | Ok a => Ok a
  | Raise e => if catches e then handler e else Raise e
  end.

Definition any_Exception (e : exn) : bool := true.

(** Statements that read and write a state [S] and may raise. *)
Definition M (S A : Type) : Type := S → result A * S.

Definition ret {S A} (a : A) : M S A := λ s, (Ok a, s).
Definition raise {S A} (e : exn) : M S A := λ s, (Raise e, s).
Definition bind {S A B} (m : M S A) (k : A → M S B) : M S B := λ s,
  match m s with
  | (Ok a, s') => k a s'
  | (Raise e, s') => (Raise e, s')
  end.
Definition lift {S A} (r : result A) : M S A := λ s, (r, s).

(** A [try] around stateful statements: the writes made before the
    exception stay. *)
Definition try_exceptM {S A} (body : M S A) (catches : exn → bool)
    (handler : exn → M S A) : M S A := λ s,
  match body s with
  | (Ok a, s') => (Ok a, s')
  | (Raise e, s') => if catches e then handler e s' else (Raise e, s')
  end.

(** Truth value testing. *)
Definition truthy (v : value) : bool :=
  match v with
  | VNone => false
  | VBool b => b
  | VInt n => negb (Z.eqb n 0)
  | VStr s => negb (String.eqb s "")
  | VOid _ => true
  | VList l => match l with [] => false | _ => true end
  end.

(** [a or b] *)
Definition py_or (a b : value) : value := if truthy a then a else b.

(** [s or d] for an [Optional[str]] *)
Definition str_or (s : option string) (d : string) : string :=
  match s with
  | Some x => if String.eqb x "" then d else x
  | None => d
  end.

(** The built-ins whose full definition lies outside the program: the
    grammar [int()] accepts on a [str], and the rendering of a list. *)
Class Builtins : Type := {
  int_of_str : string → option Z;
  str_of_list : list value → string
}.

Section builtins.
Context {builtins : Builtins}.

(** [int(v)] *)
Definition py_int (v : value) : result Z :=
  match v with
  | VNone => Raise (PyErr TypeError "int() argument must be a string, a bytes-like object or a real number, not 'NoneType'")
  | VBool b => Ok (if b then 1 else 0)
  | VInt n => Ok n
  | VStr s =>
      match int_of_str s with
      | Some n => Ok n
      | None => Raise (PyErr ValueError "invalid literal for int() with base 10")
      end
  | VOid _ => Raise (PyErr TypeError "int() argument must be a string, a bytes-like object or a real number, not 'ObjectId'")
  | VList _ => Raise (PyErr TypeError "int() argument must be a string, a bytes-like object or a real number, not 'list'")
  end.

(** [str(v)] *)
Definition py_str (v : value) : string :=
  match v with
  | VNone => "None"
  | VBool b => if b then "True" else "False"
  | VInt n => pretty n
  | VStr s => s
  | VOid hex => hex
  | VList l => str_of_list l
  end.
End builtins.

(** [d.get(k)] and [d.get(k, dflt)] *)
Definition dict_get (d : Doc) (k : string) : value := default VNone (d !! k).
Definition dict_get_or (d : Doc) (k : string) (dflt : value) : value :=
  default dflt (d !! k).

(** [s[:n]]: the first [n] characters of a [str].  A string is held here
    as its UTF-8 bytes, so a character is a leading byte together with the
    continuation bytes (10xxxxxx) that follow it. *)
Definition is_continuation (c : ascii) : bool :=
  let b := N_of_ascii c in (N.leb 128 b && N.ltb b 192)%N.

Fixpoint str_take (n : nat) (s : string) : string :=
  match s with
  | EmptyString => EmptyString
  | String c rest =>
      if is_continuation c then String c (str_take n rest)
      else match n with
           | O => EmptyString
           | S m => String c (str_take m rest)
           end
  end.

(** [sum(l)] on integers *)
Definition py_sum (l : list Z) : Z := foldl Z.add 0 l.

Definition opt_str (o : option string) : value :=
  match o with
  | Some s => VStr s
  | None => VNone
  end.

End Py.
Export Py.


Declare Scope py_scope.
Delimit Scope py_scope with py.
Notation "x <- m ;; k" := (Py.bind m (λ x, k))
  (at level 100, m at next level, right associativity) : py_scope.
Notation "m ;;; k" := (Py.bind m (λ _, k))
  (at level 100, right associativity) : py_scope.
Local Open Scope py_scope.

(** [for x in l: body(x)] *)
Fixpoint for_each {S A} (l : list A) (body : A → M S unit) : M S unit :=
  match l with
  | [] => ret tt
  | x :: rest => body x ;;; for_each rest body
  end.

(** ** [schemas.py] *)

Module Schemas.

(** What the store needs of a pydantic [BaseModel]: its fields as a [dict]. *)
Class BaseModel (A : Type) : Type := model_dump : A → Doc.

(** An [EmailStr] is a string that passed e-mail validation when the request
    was parsed. *)
Definition EmailStr : Type := string.

Module Lead.
Record t : Type := {
  name : string;
  email : EmailStr;
  phone : option string;
  interest : option string;
  source : option string;
  notes : option string
}.
End Lead.

Module Product.
Record t : Type := {
  title : string;
  description : option string;
  price_cents : Z;
  currency : string;
  image : option string;
  in_stock : bool;
  tags : option (list string)
}.
End Product.

Module Order.
Record t : Type := {
  product_id : string;
  quantity : Z;
  amount_total_cents : Z;
  currency : string;
  status : string;
  customer_email : option EmailStr;
  checkout_session_id : option string;
  created_at : option string;
  updated_at : option string
}.
End Order.

#[global] Instance Lead_model : BaseModel Lead.t := λ l,
  {[ "name" := VStr (Lead.name l);
     "email" := VStr (Lead.email l);
     "phone" := opt_str (Lead.phone l);
     "interest" := opt_str (Lead.interest l);
     "source" := opt_str (Lead.source l);
     "notes" := opt_str (Lead.notes l) ]}.

#[global] Instance Product_model : BaseModel Product.t := λ p,
  {[ "title" := VStr (Product.title p);
     "description" := opt_str (Product.description p);
     "price_cents" := VInt (Product.price_cents p);
     "currency" := VStr (Product.currency p);
     "image" := opt_str (Product.image p);
     "in_stock" := VBool (Product.in_stock p);
     "tags" := from_option (λ ts, VList (VStr <$> ts)) VNone (Product.tags p) ]}.

#[global] Instance Order_model : BaseModel Order.t := λ o,
  {[ "product_id" := VStr (Order.product_id o);
     "quantity" := VInt (Order.quantity o);
     "amount_total_cents" := VInt (Order.amount_total_cents o);
     "currency" := VStr (Order.currency o);
     "status" := VStr (Order.status o);
     "customer_email" := opt_str (Order.customer_email o);
     "checkout_session_id" := opt_str (Order.checkout_session_id o);
     "created_at" := opt_str (Order.created_at o);
     "updated_at" := opt_str (Order.updated_at o) ]}.

(** [Product(title=, description=, price_cents=, currency=, image=, tags=)]:
    [price_cents] carries [ge=0]; [in_stock] takes its default. *)
Definition ProductSchema (title : string) (description : string)
    (price_cents : Z) (currency : string) (image : string)
    (tags : list string) : result Product.t :=
  if decide (0 ≤ price_cents)%Z then
    Ok {| Product.title := title; Product.description := Some description;
          Product.price_cents := price_cents; Product.currency := currency;
          Product.image := Some image; Product.in_stock := true;
          Product.tags := Some tags |}
  else Raise (PyErr ValidationError "1 validation error for Product").

(** [Order(product_id=, quantity=, amount_total_cents=, customer_email=,
    status=)]: [quantity] carries [ge=1], [amount_total_cents] carries
    [ge=0]; the other fields take their defaults. *)
Definition OrderSchema (product_id : string) (quantity : Z)
    (amount_total_cents : Z) (customer_email : option EmailStr)
    (status : string) : result Order.t :=
  if decide (1 ≤ quantity ∧ 0 ≤ amount_total_cents)%Z then
    Ok {| Order.product_id := product_id; Order.quantity := quantity;
          Order.amount_total_cents := amount_total_cents;
          Order.currency := "usd"; Order.status := status;
          Order.customer_email := customer_email;
          Order.checkout_session_id := None;
          Order.created_at := None; Order.updated_at := None |}
  else Raise (PyErr ValidationError "validation error for Order").

(** The [Lead] built from the fields of the parsed request. *)
Definition LeadSchema (l : Lead.t) : result Lead.t := Ok l.

End Schemas.
Export Schemas.

(** ** The document store ([database.py]) *)

Module Database.

(** Modelled from the spec: the module [database] ([create_document],
    [get_documents]) is imported by [main.py] and its source is not part of
    the repository files at hand.  Section 4.1 of the specification gives its
    contract: [create(collection, record) -> id] persists the record and
    returns a store-assigned opaque identifier, or fails with a store error;
    [query(collection, filter, limit?)] returns the matching records, each
    carrying its identifier, the empty sequence when none match, or fails
    with a store error when the store is unreachable.

    The state of the store: the documents of each collection in insertion
    order, the outcomes scheduled for the coming store calls ([Some msg]: the
    call fails with that message; an exhausted schedule means no failure),
    and the source of fresh identifiers. *)
Record World : Type := {
  store : gmap string (list Doc);
  faults : list (option string);
  issued : nat;
  alloc : nat → string
}.

Definition collection (w : World) (name : string) : list Doc :=
  default [] (store w !! name).

(** Modelled from the spec: [create_document(collection_name, data)]. *)
Definition create_document `{BaseModel A} (collection_name : string)
    (data : A) : M World string := λ w,
  match faults w with
  | Some msg :: fs =>
      (Raise (PyErr StoreError msg),
       {| store := store w; faults := fs; issued := issued w; alloc := alloc w |})
  | fs =>
      let oid := alloc w (issued w) in
      let doc := <["_id" := VOid oid]> (model_dump data) in
      (Ok oid,
       {| store := <[collection_name := collection w collection_name ++ [doc]]> (store w);
          faults := tail fs; issued := S (issued w); alloc := alloc w |})
  end.

(** Modelled from the spec: [get_documents(collection_name, {}, limit)];
    the program only ever passes the empty filter. *)
Definition get_documents (collection_name : string) (limit : option nat)
    : M World (list Doc) := λ w,
  match faults w with
  | Some msg :: fs =>
      (Raise (PyErr StoreError msg),
       {| store := store w; faults := fs; issued := issued w; alloc := alloc w |})
  | fs =>
      let docs := collection w collection_name in
      (Ok (from_option (λ n, take n docs) docs limit),
       {| store := store w; faults := tail fs; issued := issued w; alloc := alloc w |})
  end.

(** Modelled from the spec: the connection handle [db] of the [database]
    module, as far as [test_database] observes it: the outcome of reading its
    [name] attribute ([Ok None] when the attribute is absent) and of
    [list_collection_names()]. *)
Record Handle : Type := {
  name_attr : result (option string);
  list_collection_names : result (list string)
}.

End Database.
Export Database.

(** ** [main.py] *)

Module Main.

(** *** Request and response models *)

Module CheckoutItem.
Record t : Type := { product_id : string; quantity : Z }.
End CheckoutItem.

Module CheckoutRequest.
Record t : Type := {
  items : list CheckoutItem.t;
  customer_email : option EmailStr
}.
End CheckoutRequest.

(** The entries of [line_items]. *)
Record LineItem : Type := {
  li_name : value;
  li_amount : Z;
  li_currency : value;
  li_quantity : Z
}.

(** The entries of [stripe_line_items]. *)
Record StripeLineItem : Type := {
  price_data_currency : value;
  price_data_product_name : value;
  price_data_unit_amount : Z;
  sli_quantity : Z
}.

(** The arguments of [stripe.checkout.Session.create], with the API key
    set just before. *)
Record SessionParams : Type := {
  api_key : string;
  mode : string;
  line_items : list StripeLineItem;
  success_url : string;
  cancel_url : string;
  session_customer_email : option EmailStr
}.

(** The dict [create_checkout_session] returns; [note] is [None] when the
    key is absent. *)
Record CheckoutResponse : Type := {
  checkout_url : string;
  order_id : string;
  note : option string
}.

(** The dict [create_lead] returns. *)
Record LeadResponse : Type := {
  status : string;
  id : string;
  google_range : option string
}.

(** The dict [test_database] returns. *)
Record Report : Type := {
  backend : string;
  database : string;
  database_url : option string;
  database_name : option string;
  connection_status : string;
  collections : list string
}.

(** *** The process environment and the third-party packages

    [environ] is what [os.getenv] reads, [db] the handle imported from the
    [database] module.  The Google and Stripe client libraries are taken by
    their outcomes: each call returns or raises. [values_append] stands for
    the [append(...).execute()] request and yields
    [result.get("updates", {}).get("updatedRange")]. *)
Class Host : Type := {
  environ : gmap string string;
  db : option Handle;
  google_installed : bool;
  Json : Type;
  json_loads : string → result Json;
  b64decode_utf8 : string → result string;
  Credentials : Type;
  from_service_account_info : Json → list string → result Credentials;
  Service : Type;
  build : string → string → Credentials → result Service;
  values_append : Service → string → string → list (list string) → result value;
  stripe_installed : bool;
  Session_create : SessionParams → result string
}.

(** Truth value of what [os.getenv] returned. *)
Definition env_truthy (v : option string) : bool :=
  match v with
  | Some s => negb (String.eqb s "")
  | None => false
  end.

Section handlers.
Context {builtins : Builtins} {host : Host}.

Definition getenv (k : string) : option string := environ !! k.
Definition getenv_or (k : string) (dflt : string) : string :=
  default dflt (environ !! k).

(** *** Google Sheets integration *)

(** The inner [try]: the service-account document, parsed directly or,
    when that raises [json.JSONDecodeError], parsed after base64 decoding. *)
Definition load_service_account_info (service_account_json : string)
    : result Json :=
  try_except (json_loads service_account_json) is_JSONDecodeError
    (λ _, decoded ← b64decode_utf8 service_account_json;
          json_loads decoded).

(** The statements of the outer [try] once [info] is bound. *)
Definition append_values (info : Json) (spreadsheet_id sheet_range : string)
    (lead : Lead.t) : result (option string) :=
  let scopes := ["https://www.googleapis.com/auth/spreadsheets"] in
  credentials ← from_service_account_info info scopes;
  service ← build "sheets" "v4" credentials;
  let values := [[ Lead.name lead;
                   Lead.email lead;
                   str_or (Lead.phone lead) "";
                   str_or (Lead.interest lead) "";
                   str_or (Lead.source lead) "website";
                   str_or (Lead.notes lead) "" ]] in
  updated_range ← values_append service spreadsheet_id sheet_range values;
  mret (Some (py_str updated_range)).

Definition append_lead_to_google_sheets (lead : Lead.t)
    : result (option string) :=
  let spreadsheet_id := getenv "GOOGLE_SHEETS_SPREADSHEET_ID" in
  let service_account_json := getenv "GOOGLE_SHEETS_SERVICE_ACCOUNT_JSON" in
  let sheet_range := getenv_or "GOOGLE_SHEETS_LEADS_RANGE" "Leads!A:F" in
  if negb (env_truthy spreadsheet_id) || negb (env_truthy service_account_json)
  then Ok None
  else
    let spreadsheet_id := default "" spreadsheet_id in
    let service_account_json := default "" service_account_json in
    if negb google_installed then Ok None
    else
      try_except
        (info ← load_service_account_info service_account_json;
         append_values info spreadsheet_id sheet_range lead)
        any_Exception (λ _, Ok None).

(** *** Seed data *)

Definition samples : result (list Product.t) :=
  s1 ← ProductSchema "Citrus Bloom" "Fresh citrus with floral heart." 5900 "usd"
         "https://images.unsplash.com/photo-1608571424053-c7c3a1e3a1cc?q=80&w=1600&auto=format&fit=crop"
         ["citrus"; "daytime"];
  s2 ← ProductSchema "Amber Dusk" "Warm amber and vanilla." 7200 "usd"
         "https://images.unsplash.com/photo-1541643600914-78b084683601?q=80&w=1600&auto=format&fit=crop"
         ["amber"; "evening"];
  s3 ← ProductSchema "Verdant Mist" "Green notes with a dewy finish." 6400 "usd"
         "https://images.unsplash.com/photo-1600180758890-6b94519a8ba6?q=80&w=1600&auto=format&fit=crop"
         ["green"; "unisex"];
  mret [s1; s2; s3].

(** The first [try] block of [ensure_sample_products]: [true] when the
    function returns from inside it. *)
Definition seeding_not_needed : M World bool :=
  try_exceptM
    (existing <- get_documents "product" (Some 1%nat) ;;
     match existing with
     | _ :: _ => ret true
     | [] => ret false
     end)
    any_Exception (λ _, ret true).

(** The body of the loop over [samples]. *)
Definition seed_one (s : Product.t) : M World unit :=
  try_exceptM (create_document "product" s ;;; ret tt)
    any_Exception (λ _, ret tt).

Definition ensure_sample_products : M World unit :=
  returned <- seeding_not_needed ;;
  if returned : bool then ret tt
  else
    samples <- lift samples ;;
    for_each samples seed_one.

(** *** Routes *)

Definition root : string := "Perfume AI Agent Backend Running".

(** [if "_id" in p: p["id"] = str(p.pop("_id"))] *)
Definition rename_id (p : Doc) : Doc :=
  match p !! "_id" with
  | Some v => <["id" := VStr (py_str v)]> (delete "_id" p)
  | None => p
  end.

Definition list_products : M World (list Doc) :=
  ensure_sample_products ;;;
  prods <- get_documents "product" None ;;
  ret (rename_id <$> prods).

Definition create_lead (lead : Lead.t) : M World LeadResponse :=
  lead_doc <- lift (LeadSchema lead) ;;
  inserted_id <- try_exceptM (create_document "lead" lead_doc) any_Exception
    (λ e, raise (HTTPException 500 ("Database error: " +:+ exn_str e))) ;;
  _range <- lift (append_lead_to_google_sheets lead_doc) ;;
  ret {| status := "ok"; id := inserted_id; google_range := _range |}.
(** *** Checkout *)

(** [by_id = {}; for p in products: by_id[str(p.get("_id"))] = p] *)
Definition index_by_id (products : list Doc) : gmap string Doc :=
  foldl (λ by_id p, <[py_str (dict_get p "_id") := p]> by_id) ∅ products.

(** [not prod], for [prod = by_id.get(...)]: no entry, or an empty dict. *)
Definition not_prod (prod : option Doc) : bool :=
  match prod with
  | Some d => bool_decide (size d = 0%nat)
  | None => true
  end.

(** [int(prod.get("price_cents") or 0)] *)
Definition unit_price (prod : Doc) : result Z :=
  py_int (py_or (dict_get prod "price_cents") (VInt 0)).

(** The loop over [payload.items] that prices the cart, started from the
    current [amount_total] and [line_items]. *)
Fixpoint price_items (by_id : gmap string Doc) (items : list CheckoutItem.t)
    (amount_total : Z) (line_items : list LineItem)
    : result (Z * list LineItem) :=
  match items with
  | [] => Ok (amount_total, line_items)
  | it :: rest =>
      let prod := by_id !! CheckoutItem.product_id it in
      if not_prod prod then
        Raise (HTTPException 404
                 ("Product not found: " +:+ CheckoutItem.product_id it))
      else
        let prod := default ∅ prod in
        let qty := Z.max 1 (CheckoutItem.quantity it) in
        price_cents ← unit_price prod;
        price_items by_id rest (amount_total + price_cents * qty)
          (line_items ++ [ {| li_name := dict_get prod "title";
                              li_amount := price_cents;
                              li_currency := dict_get_or prod "currency" (VStr "usd");
                              li_quantity := qty |} ])
  end.

(** A line item the pricing loop gets past: its id resolves to a
    non-empty document whose price [int()] accepts. *)
Definition priceable (by_id : gmap string Doc) (it : CheckoutItem.t) : Prop :=
  not_prod (by_id !! CheckoutItem.product_id it) = false
  ∧ ∃ p, unit_price (default ∅ (by_id !! CheckoutItem.product_id it)) = Ok p.

(** The loop that builds [stripe_line_items], started from the current
    list. *)
Fixpoint stripe_items (by_id : gmap string Doc) (items : list CheckoutItem.t)
    (stripe_line_items : list StripeLineItem) : result (list StripeLineItem) :=
  match items with
  | [] => Ok stripe_line_items
  | it :: rest =>
      match by_id !! CheckoutItem.product_id it with
      | None => Raise (PyErr KeyError (CheckoutItem.product_id it))
      | Some prod =>
          unit_amount ← unit_price prod;
          stripe_items by_id rest
            (stripe_line_items ++
             [ {| price_data_currency := dict_get_or prod "currency" (VStr "usd");
                  price_data_product_name := dict_get prod "title";
                  price_data_unit_amount := unit_amount;
                  sli_quantity := Z.max 1 (CheckoutItem.quantity it) |} ])
      end
  end.

(** The body of the [try] taken when Stripe is configured. *)
Definition stripe_session (stripe_key : string) (by_id : gmap string Doc)
    (payload : CheckoutRequest.t) (order_id : string)
    : result CheckoutResponse :=
  if negb stripe_installed then
    Raise (PyErr ImportError "No module named 'stripe'")
  else
    let success_url := getenv_or "CHECKOUT_SUCCESS_URL" "https://example.com/success" in
    let cancel_url := getenv_or "CHECKOUT_CANCEL_URL" "https://example.com/cancel" in
    stripe_line_items ← stripe_items by_id (CheckoutRequest.items payload) [];
    session_url ← Session_create
      {| api_key := stripe_key;
         mode := "payment";
         line_items := stripe_line_items;
         success_url := success_url +:+ "?order_id=" +:+ order_id;
         cancel_url := cancel_url +:+ "?order_id=" +:+ order_id;
         session_customer_email := CheckoutRequest.customer_email payload |};
    mret {| checkout_url := session_url; order_id := order_id; note := None |}.

Definition mock_checkout (order_id : string) : CheckoutResponse :=
  {| checkout_url := "https://checkout.mock/" +:+ order_id;
     order_id := order_id;
     note := Some "Stripe not configured; using mock checkout URL. Set STRIPE_SECRET_KEY to enable real payments." |}.

Definition create_checkout_session (payload : CheckoutRequest.t)
    : M World CheckoutResponse :=
  match CheckoutRequest.items payload with
  | [] => raise (HTTPException 400 "No items provided")
  | first :: _ =>
      let stripe_key := getenv "STRIPE_SECRET_KEY" in
      products <- get_documents "product" None ;;
      let by_id := index_by_id products in
      priced <- lift (price_items by_id (CheckoutRequest.items payload) 0 []) ;;
      let amount_total := priced.1 in
      order <- lift (OrderSchema
                       (CheckoutItem.product_id first)
                       (py_sum (CheckoutItem.quantity <$> CheckoutRequest.items payload))
                       amount_total
                       (CheckoutRequest.customer_email payload)
                       "created") ;;
      order_id <- create_document "order" order ;;
      if env_truthy stripe_key then
        match stripe_session (default "" stripe_key) by_id payload order_id with
        | Ok response => ret response
        | Raise _ => ret (mock_checkout order_id)
        end
      else ret (mock_checkout order_id)
  end.

(** Named parts of [create_checkout_session], for the statements below:
    what it returns once the order is stored, *)
Definition checkout_response (by_id : gmap string Doc)
    (payload : CheckoutRequest.t) (order_id : string) : CheckoutResponse :=
  if env_truthy (getenv "STRIPE_SECRET_KEY") then
    match stripe_session (default "" (getenv "STRIPE_SECRET_KEY")) by_id payload order_id with
    | Ok response => response
    | Raise _ => mock_checkout order_id
    end
  else mock_checkout order_id.

(** and the order it builds from a priced cart. *)
Definition order_of (payload : CheckoutRequest.t) (first : CheckoutItem.t)
    (amount_total : Z) : result Order.t :=
  OrderSchema (CheckoutItem.product_id first)
    (py_sum (CheckoutItem.quantity <$> CheckoutRequest.items payload))
    amount_total (CheckoutRequest.customer_email payload) "created".

(** *** Diagnostics *)

Definition set_database (v : string) : M Report unit := λ r,
  (Ok tt, {| backend := backend r; database := v;
             database_url := database_url r; database_name := database_name r;
             connection_status := connection_status r;
             collections := collections r |}).
Definition set_database_url (v : option string) : M Report unit := λ r,
  (Ok tt, {| backend := backend r; database := database r;
             database_url := v; database_name := database_name r;
             connection_status := connection_status r;
             collections := collections r |}).
Definition set_database_name (v : option string) : M Report unit := λ r,
  (Ok tt, {| backend := backend r; database := database r;
             database_url := database_url r; database_name := v;
             connection_status := connection_status r;
             collections := collections r |}).
Definition set_connection_status (v : string) : M Report unit := λ r,
  (Ok tt, {| backend := backend r; database := database r;
             database_url := database_url r; database_name := database_name r;
             connection_status := v;
             collections := collections r |}).
Definition set_collections (v : list string) : M Report unit := λ r,
  (Ok tt, {| backend := backend r; database := database r;
             database_url := database_url r; database_name := database_name r;
             connection_status := connection_status r;
             collections := v |}).

Definition initial_report : Report :=
  {| backend := "✅ Running";
     database := "❌ Not Available";
     database_url := None;
     database_name := None;
     connection_status := "Not Connected";
     collections := [] |}.

(** The statements of [test_database] between the creation of [response]
    and [return response]. *)
Definition probe_database : M Report unit :=
  try_exceptM
    (match db with
     | Some db =>
         set_database "✅ Available" ;;;
         set_database_url
           (Some (if env_truthy (getenv "DATABASE_URL") then "✅ Set" else "❌ Not Set")) ;;;
         name <- lift (name_attr db) ;;
         set_database_name (Some (str_or name "Unknown")) ;;;
         set_connection_status "Connected" ;;;
         try_exceptM
           (collections <- lift (list_collection_names db) ;;
            set_collections (take 10 collections) ;;;
            set_database "✅ Connected & Working")
           any_Exception
           (λ e, set_database ("⚠️ Connected but Error: " +:+ str_take 80 (exn_str e)))
     | None => set_database "⚠️ Available but not initialized"
     end)
    any_Exception
    (λ e, set_database ("❌ Error: " +:+ str_take 80 (exn_str e))).

Definition test_database : result Report :=
  match probe_database initial_report with
  | (Ok _, response) => Ok response
  | (Raise e, _) => Raise e
  end.
End handlers.

End Main.
Export Main.

(** ** The specification's reading of the checkout *)

Module Spec.

(** The catalog price of a product id: the integer its document holds in
    [price_cents], when the id resolves to such a document. *)
Definition catalog_price (by_id : gmap string Doc) (pid : string) : option Z :=
  prod ← by_id !! pid;
  match prod !! "price_cents" with
  | Some (VInt p) => Some p
  | _ => None
  end.

(** "price_cents × max(1, quantity)" *)
Definition line_cents (by_id : gmap string Doc) (it : CheckoutItem.t) : Z :=
  default 0 (catalog_price by_id (CheckoutItem.product_id it))
  * Z.max 1 (CheckoutItem.quantity it).

(** "Σ (resolved unit price_cents × clamped quantity) over all line items" *)
Definition amount_total (by_id : gmap string Doc) (items : list CheckoutItem.t) : Z :=
  foldr (λ it acc, line_cents by_id it + acc) 0 items.

(** "the sum of all clamped quantities" *)
Definition clamped_quantity (items : list CheckoutItem.t) : Z :=
  foldr (λ it acc, Z.max 1 (CheckoutItem.quantity it) + acc) 0 items.

End Spec.

(** ** Concrete hosts for the examples *)

Module Examples.

(** A fragment of the grammar of [int()] on strings: an optional sign
    followed by ASCII digits.  Whatever it rejects below ("12.50") Python
    rejects too. *)
Definition digit_of (c : ascii) : option Z :=
  let n := Z.of_N (N_of_ascii c) in
  if (48 <=? n) && (n <=? 57) then Some (n - 48) else None.

Fixpoint digits (s : string) (acc : Z) : option Z :=
  match s with
  | EmptyString => Some acc
  | String c rest => d ← digit_of c; digits rest (10 * acc + d)
  end.

Definition decimal (s : string) : option Z :=
  match s with
  | EmptyString => None
  | String "-" (String c rest) => Z.opp <$> digits (String c rest) 0
  | String "+" (String c rest) => digits (String c rest) 0
  | String "-" EmptyString | String "+" EmptyString => None
  | _ => digits s 0
  end.

Definition plain_builtins : Builtins :=
  {| int_of_str := decimal; str_of_list := λ _, "[...]" |}.

(** A process with an empty environment, no store handle and neither client
    library installed. *)
Definition bare_host : Host :=
  {| environ := ∅;
     db := None;
     google_installed := false;
     Json := unit;
     json_loads := λ _, Raise (PyErr JSONDecodeError "Expecting value");
     b64decode_utf8 := λ _, Raise (PyErr ValueError "Incorrect padding");
     Credentials := unit;
     from_service_account_info := λ _ _, Ok tt;
     Service := unit;
     build := λ _ _ _, Ok tt;
     values_append := λ _ _ _ _, Ok VNone;
     stripe_installed := false;
     Session_create := λ _, Raise (PyErr OtherError "unreachable") |}.

(** Identifiers issued in sequence: [oid0], [oid1], ... *)
Definition oid (n : nat) : string := "oid" +:+ pretty n.

(** A reachable store holding the given products. *)
Definition world_with (products : list Doc) : World :=
  {| store := {[ "product" := products ]}; faults := []; issued := 0; alloc := oid |}.

(** The product "P1" at 5900 cents. *)
Definition P1 : Doc :=
  {[ "_id" := VOid "P1"; "title" := VStr "Citrus Bloom"; "price_cents" := VInt 5900;
     "currency" := VStr "usd" ]}.

(** The product "P0", stored without a price. *)
Definition P0 : Doc := {[ "_id" := VOid "P0"; "title" := VStr "Sampler" ]}.

(** A store that cannot be reached for its next call. *)
Definition unreachable_world : World :=
  {| store := ∅; faults := [Some "connection refused"]; issued := 0; alloc := oid |}.

Definition item (pid : string) (q : Z) : CheckoutItem.t :=
  {| CheckoutItem.product_id := pid; CheckoutItem.quantity := q |}.

Definition cart (its : list CheckoutItem.t) : CheckoutRequest.t :=
  {| CheckoutRequest.items := its; CheckoutRequest.customer_email := None |}.

(** A process with a Stripe key whose session requests succeed. *)
Definition stripe_host : Host :=
  {| environ := {[ "STRIPE_SECRET_KEY" := "sk_test_1" ]};
     db := None;
     google_installed := false;
     Json := unit;
     json_loads := λ _, Raise (PyErr JSONDecodeError "Expecting value");
     b64decode_utf8 := λ _, Raise (PyErr ValueError "Incorrect padding");
     Credentials := unit;
     from_service_account_info := λ _ _, Ok tt;
     Service := unit;
     build := λ _ _ _, Ok tt;
     values_append := λ _ _ _ _, Ok VNone;
     stripe_installed := true;
     Session_create := λ params, Ok ("https://stripe.test/pay?back=" +:+ success_url params) |}.

(** A process configured for Google Sheets, with the client library
    installed and a credential that is neither JSON nor base64. *)
Definition sheets_host : Host :=
  {| environ := {[ "GOOGLE_SHEETS_SPREADSHEET_ID" := "sheet-1";
                   "GOOGLE_SHEETS_SERVICE_ACCOUNT_JSON" := "%%%not-base64%%%" ]};
     db := Some {| name_attr := Ok (Some "perfume");
                   list_collection_names := Ok ["lead"; "order"; "product"] |};
     google_installed := true;
     Json := unit;
     json_loads := λ _, Raise (PyErr JSONDecodeError "Expecting value");
     b64decode_utf8 := λ _, Raise (PyErr ValueError "Incorrect padding");
     Credentials := unit;
     from_service_account_info := λ _ _, Ok tt;
     Service := unit;
     build := λ _ _ _, Ok tt;
     values_append := λ _ _ _ _, Ok (VStr "Leads!A2:F2");
     stripe_installed := false;
     Session_create := λ _, Raise (PyErr OtherError "unreachable") |}.

(** The same process with the credential "e30=", the base64 form of the
    JSON document "{}": only documents that start with a brace parse. *)
Definition base64_host : Host :=
  {| environ := {[ "GOOGLE_SHEETS_SPREADSHEET_ID" := "sheet-1";
                   "GOOGLE_SHEETS_SERVICE_ACCOUNT_JSON" := "e30=" ]};
     db := None;
     google_installed := true;
     Json := string;
     json_loads := λ s, match s with
                        | String "{" _ => Ok s
                        | _ => Raise (PyErr JSONDecodeError "Expecting value")
                        end;
     b64decode_utf8 := λ s, if String.eqb s "e30=" then Ok "{}"
                            else Raise (PyErr ValueError "Incorrect padding");
     Credentials := string;
     from_service_account_info := λ info _, Ok info;
     Service := unit;
     build := λ _ _ _, Ok tt;
     values_append := λ _ _ _ _, Ok (VStr "Leads!A2:F2");
     stripe_installed := false;
     Session_create := λ _, Raise (PyErr OtherError "unreachable") |}.

(** A process configured for Google Sheets with the given credential,
    whose client doubles let the reported range show which document the
    credentials were built from: a text parses when it starts with a brace,
    decoding wraps its argument in braces, and the append request answers
    with the document itself. *)
Definition tracing_host (cred : string) : Host :=
  {| environ := {[ "GOOGLE_SHEETS_SPREADSHEET_ID" := "sheet-1";
                   "GOOGLE_SHEETS_SERVICE_ACCOUNT_JSON" := cred ]};
     db := None;
     google_installed := true;
     Json := string;
     json_loads := λ s, match s with
                        | String "{" _ => Ok s
                        | _ => Raise (PyErr JSONDecodeError "Expecting value")
                        end;
     b64decode_utf8 := λ s, Ok ("{" +:+ s +:+ "}");
     Credentials := string;
     from_service_account_info := λ info _, Ok info;
     Service := string;
     build := λ _ _ credentials, Ok credentials;
     values_append := λ service _ _ _, Ok (VStr service);
     stripe_installed := false;
     Session_create := λ _, Raise (PyErr OtherError "unreachable") |}.

(** A process whose store handle fails when its name is read. *)
Definition flaky_host : Host :=
  {| environ := {[ "DATABASE_URL" := "mongodb://localhost" ]};
     db := Some {| name_attr := Raise (PyErr OtherError "handle closed");
                   list_collection_names := Ok [] |};
     google_installed := false;
     Json := unit;
     json_loads := λ _, Raise (PyErr JSONDecodeError "Expecting value");
     b64decode_utf8 := λ _, Raise (PyErr ValueError "Incorrect padding");
     Credentials := unit;
     from_service_account_info := λ _ _, Ok tt;
     Service := unit;
     build := λ _ _ _, Ok tt;
     values_append := λ _ _ _ _, Ok VNone;
     stripe_installed := false;
     Session_create := λ _, Raise (PyErr OtherError "unreachable") |}.

(** A store holding P1 whose second call fails. *)
Definition failing_write_world : World :=
  {| store := {[ "product" := [P1] ]}; faults := [None; Some "disk full"];
     issued := 0; alloc := oid |}.


Definition ada : Lead.t :=
  {| Lead.name := "Ada"; Lead.email := "ada@example.com"; Lead.phone := None;
     Lead.interest := None; Lead.source := Some "website"; Lead.notes := None |}.

Definition checkout := @create_checkout_session plain_builtins bare_host.
Definition stripe_checkout := @create_checkout_session plain_builtins stripe_host.

(** One field of every stored order, in insertion order. *)
Definition order_field (k : string) (w : World) : list (option value) :=
  (λ d : Doc, d !! k) <$> collection w "order".
Definition quantities : World → list (option value) := order_field "quantity".

(** The titles of the stored products, in insertion order. *)
Definition titles (w : World) : list (option value) :=
  (λ d : Doc, d !! "title") <$> collection w "product".

End Examples.

(** ** Quantities the further properties speak about *)

Module Observations.

(** The key under which [create_checkout_session] files a product. *)
Definition key_of {builtins : Builtins} (p : Doc) : string :=
  py_str (dict_get p "_id").

(** What a list of Stripe line items asks the customer to pay. *)
Definition charged (sl : list StripeLineItem) : Z :=
  foldr (λ l acc, price_data_unit_amount l * sli_quantity l + acc) 0 sl.

(** What the entries of [line_items] add up to. *)
Definition billed (li : list LineItem) : Z :=
  foldr (λ l acc, li_amount l * li_quantity l + acc) 0 li.

(** The session request [create_checkout_session] sends for an order. *)
Definition session_request {host : Host} (stripe_key : string)
    (sl : list StripeLineItem) (payload : CheckoutRequest.t)
    (order_id : string) : SessionParams :=
  {| api_key := stripe_key;
     mode := "payment";
     line_items := sl;
     success_url := getenv_or "CHECKOUT_SUCCESS_URL" "https://example.com/success"
                    +:+ "?order_id=" +:+ order_id;
     cancel_url := getenv_or "CHECKOUT_CANCEL_URL" "https://example.com/cancel"
                   +:+ "?order_id=" +:+ order_id;
     session_customer_email := CheckoutRequest.customer_email payload |}.

(** The row [append_lead_to_google_sheets] sends for a lead. *)
Definition lead_row (lead : Lead.t) : list (list string) :=
  [[ Lead.name lead;
     Lead.email lead;
     str_or (Lead.phone lead) "";
     str_or (Lead.interest lead) "";
     str_or (Lead.source lead) "website";
     str_or (Lead.notes lead) "" ]].


(** The sample products, as the seeder builds them. *)
Definition sample_products : list Product.t :=
  match samples with
  | Ok l => l
  | Raise _ => []
  end.

(** Identifier, title and price of a stored product. *)
Definition product_summary (d : Doc) : option value * option value * option value :=
  (d !! "_id", d !! "title", d !! "price_cents").


Definition sample_titles : list (option value) :=
  [Some (VStr "Citrus Bloom"); Some (VStr "Amber Dusk"); Some (VStr "Verdant Mist")].

(** The next [n] store calls are not scheduled to fail. *)
Definition calls_succeed (n : nat) (w : World) : Prop :=
  Forall (λ f, f = None) (take n (faults w)).

End Observations.
Export Observations.

(** ** Properties *)

(** *** The store *)

Section store_facts.
Context `{!BaseModel A}.

Lemma get_documents_store name limit w :
  store (get_documents name limit w).2 = store w.
Proof. unfold get_documents. by destruct (faults w) as [|[msg|] fs]. Qed.

Lemma get_documents_ok name limit w :
  (∀ msg, head (faults w) ≠ Some (Some msg)) →
  ∃ w', get_documents name limit w
          = (Ok (from_option (λ n, take n (collection w name))
                   (collection w name) limit), w')
        ∧ store w' = store w ∧ faults w' = tail (faults w)
        ∧ issued w' = issued w ∧ alloc w' = alloc w.
Proof.
  intros Hok. unfold get_documents.
  destruct (faults w) as [|[msg|] fs] eqn:Hf; simpl; eauto 10.
  by destruct (Hok msg).
Qed.

Lemma get_documents_cases name limit w r w' :
  get_documents name limit w = (r, w') →
  store w' = store w ∧ faults w' = tail (faults w)
  ∧ issued w' = issued w ∧ alloc w' = alloc w
  ∧ ((∃ msg, r = Raise (PyErr StoreError msg))
     ∨ r = Ok (from_option (λ n, take n (collection w name))
                 (collection w name) limit)).
Proof.
  unfold get_documents.
  destruct (faults w) as [|[msg|] fs] eqn:Hf; intros [= <- <-]; simpl;
    rewrite ?Hf; eauto 10.
Qed.

Lemma create_document_cases name (data : A) w r w' :
  create_document name data w = (r, w') →
  (∃ msg, r = Raise (PyErr StoreError msg) ∧ store w' = store w)
  ∨ (r = Ok (alloc w (issued w))
     ∧ store w' = <[name := collection w name
                     ++ [<["_id" := VOid (alloc w (issued w))]> (model_dump data)]]>
                    (store w)).
Proof.
  unfold create_document.
  destruct (faults w) as [|[msg|] fs] eqn:Hf; intros [= <- <-]; simpl; eauto.
Qed.

Lemma create_document_ok name (data : A) w :
  (∀ msg, head (faults w) ≠ Some (Some msg)) →
  ∃ w', create_document name data w = (Ok (alloc w (issued w)), w')
        ∧ store w' = <[name := collection w name
                        ++ [<["_id" := VOid (alloc w (issued w))]> (model_dump data)]]>
                       (store w)
        ∧ faults w' = tail (faults w).
Proof.
  intros Hok. unfold create_document.
  destruct (faults w) as [|[msg|] fs] eqn:Hf; simpl; eauto.
  by destruct (Hok msg).
Qed.

(** A write to one collection leaves every other collection as it was. *)
Lemma create_document_other name other (data : A) w :
  name ≠ other →
  collection (create_document name data w).2 other = collection w other.
Proof.
  intros Hne. unfold create_document, collection.
  destruct (faults w) as [|[msg|] fs]; simpl; try done;
    by rewrite lookup_insert_ne.
Qed.
End store_facts.

Lemma collection_insert_eq (m : gmap string (list Doc)) name docs w :
  store w = <[name := docs]> m → collection w name = docs.
Proof. intros E. unfold collection. by rewrite E, lookup_insert_eq. Qed.

Lemma collection_insert_ne name other docs w w0 :
  store w = <[name := docs]> (store w0) → name ≠ other →
  collection w other = collection w0 other.
Proof. intros E Hne. unfold collection. by rewrite E, lookup_insert_ne. Qed.

Lemma collection_same w w0 name :
  store w = store w0 → collection w name = collection w0 name.
Proof. unfold collection. by intros ->. Qed.

(** *** The checkout run, case by case *)

Section checkout_facts.
Context {builtins : Builtins} {host : Host}.

(** Every run either raises and leaves all collections as they were, or
    goes through all of: catalog read, pricing, validation and the write of
    one order document, and returns a response. *)
Lemma checkout_run payload w :
  (store (create_checkout_session payload w).2 = store w
   ∧ ∃ e, (create_checkout_session payload w).1 = Raise e)
  ∨ (∃ first rest priced order,
       CheckoutRequest.items payload = first :: rest
       ∧ (∀ msg, head (faults w) ≠ Some (Some msg))
       ∧ price_items (index_by_id (collection w "product"))
           (CheckoutRequest.items payload) 0 [] = Ok priced
       ∧ order_of payload first priced.1 = Ok order
       ∧ (∀ msg, head (tail (faults w)) ≠ Some (Some msg))
       ∧ store (create_checkout_session payload w).2
           = <["order" := collection w "order"
                 ++ [<["_id" := VOid (alloc w (issued w))]> (model_dump order)]]>
               (store w)
       ∧ (create_checkout_session payload w).1
           = Ok (checkout_response (index_by_id (collection w "product"))
                   payload (alloc w (issued w)))).
Proof.
  destruct (create_checkout_session payload w) as [r w'] eqn:Hrun.
  cbn [fst snd].
  unfold create_checkout_session in Hrun.
  destruct (CheckoutRequest.items payload) as [|first rest] eqn:Hitems.
  { left. injection Hrun as <- <-. eauto. }
  unfold bind at 1 in Hrun.
  destruct (get_documents "product" None w) as [r1 w1] eqn:Hread.
  pose proof Hread as Hread'.
  apply get_documents_cases in Hread' as (Hs1 & Hf1 & Hi1 & Ha1 & [[msg ->] | ->]).
  { left. injection Hrun as <- <-. eauto. }
  cbn [from_option] in Hrun.
  unfold bind at 1, lift at 1 in Hrun.
  destruct (price_items _ (first :: rest) 0 []) as [priced|e] eqn:Hprice.
  2:{ left. injection Hrun as <- <-. eauto. }
  unfold bind at 1, lift at 1 in Hrun.
  destruct (OrderSchema _ _ _ _ _) as [order|e] eqn:Horder.
  2:{ left. injection Hrun as <- <-. eauto. }
  unfold bind at 1 in Hrun.
  destruct (create_document "order" order w1) as [r2 w2] eqn:Hwrite.
  pose proof Hwrite as Hwrite'.
  apply create_document_cases in Hwrite' as [(msg & -> & Hs2) | (-> & Hs2)].
  { left. injection Hrun as <- <-. split; [congruence | eauto]. }
  right. exists first, rest, priced, order.
  assert (Hr : ∀ msg, head (faults w) ≠ Some (Some msg)).
  { intros msg Hm. unfold get_documents in Hread.
    destruct (faults w) as [|[m|] fs]; simplify_eq/=. }
  assert (Hw : ∀ msg, head (tail (faults w)) ≠ Some (Some msg)).
  { intros msg Hm. rewrite <- Hf1 in Hm. unfold create_document in Hwrite.
    destruct (faults w1) as [|[m|] fs]; simplify_eq/=. }
  rewrite (collection_same w1 w), Hi1, Ha1, Hs1 in Hs2 by done.
  rewrite Hi1, Ha1 in Hrun.
  unfold checkout_response, order_of. rewrite Hitems.
  split_and!; try done.
  - destruct (env_truthy _); [destruct (stripe_session _ _ _ _)|];
      injection Hrun as <- <-; done.
  - destruct (env_truthy _); [destruct (stripe_session _ _ _ _)|];
      injection Hrun as <- <-; done.
Qed.
End checkout_facts.

(** *** Pricing *)

Section pricing_facts.
Context {builtins : Builtins}.

Lemma not_prod_false_inv (o : option Doc) :
  not_prod o = false → ∃ prod, o = Some prod ∧ prod ≠ ∅.
Proof.
  destruct o as [prod|]; [|done]. simpl. intros Hsz. exists prod. split; [done|].
  intros ->. by rewrite map_size_empty in Hsz.
Qed.

Lemma not_prod_has_key (prod : Doc) k v :
  prod !! k = Some v → not_prod (Some prod) = false.
Proof.
  intros Hk. simpl. apply bool_decide_eq_false. intros Hsz.
  apply map_size_empty_inv in Hsz. subst. by rewrite lookup_empty in Hk.
Qed.

Lemma unit_price_int (prod : Doc) p :
  prod !! "price_cents" = Some (VInt p) → unit_price prod = Ok p.
Proof.
  intros Hp. unfold unit_price, dict_get, py_or. rewrite Hp. simpl.
  destruct (Z.eqb_spec p 0) as [->|]; done.
Qed.

Lemma unit_price_falsy (prod : Doc) :
  truthy (dict_get prod "price_cents") = false → unit_price prod = Ok 0.
Proof. intros Hf. unfold unit_price, py_or. by rewrite Hf. Qed.

Lemma catalog_price_priceable by_id it p :
  Spec.catalog_price by_id (CheckoutItem.product_id it) = Some p →
  not_prod (by_id !! CheckoutItem.product_id it) = false
  ∧ unit_price (default ∅ (by_id !! CheckoutItem.product_id it)) = Ok p.
Proof.
  unfold Spec.catalog_price. intros Hp.
  destruct (by_id !! CheckoutItem.product_id it) as [prod|] eqn:Hprod; [|done].
  simpl in Hp.
  destruct (prod !! "price_cents") as [[| |q| | |]|] eqn:Hq; simplify_eq.
  split; [by eapply not_prod_has_key | by apply unit_price_int].
Qed.

(** One iteration of the pricing loop on a priceable item. *)
Lemma price_items_step by_id it rest a li p :
  not_prod (by_id !! CheckoutItem.product_id it) = false →
  unit_price (default ∅ (by_id !! CheckoutItem.product_id it)) = Ok p →
  price_items by_id (it :: rest) a li
  = price_items by_id rest (a + p * Z.max 1 (CheckoutItem.quantity it))
      (li ++ [ {| li_name := dict_get (default ∅ (by_id !! CheckoutItem.product_id it)) "title";
                  li_amount := p;
                  li_currency := dict_get_or (default ∅ (by_id !! CheckoutItem.product_id it))
                                   "currency" (VStr "usd");
                  li_quantity := Z.max 1 (CheckoutItem.quantity it) |} ]).
Proof. intros Hn Hp. cbn [price_items]. by rewrite Hn, Hp. Qed.

(** The loop stops at the first item that does not resolve. *)
Lemma price_items_not_found by_id pre it post a li :
  Forall (priceable by_id) pre →
  not_prod (by_id !! CheckoutItem.product_id it) = true →
  price_items by_id (pre ++ it :: post) a li
  = Raise (HTTPException 404 ("Product not found: " +:+ CheckoutItem.product_id it)).
Proof.
  intros Hpre Hit. revert a li.
  induction Hpre as [|x pre [Hn [p Hp]] _ IH]; intros a li.
  - cbn [app price_items]. by rewrite Hit.
  - rewrite <- app_comm_cons, (price_items_step _ _ _ _ _ p) by done. apply IH.
Qed.

(** A cart with an item that does not resolve is never priced. *)
Lemma price_items_unresolved by_id items a li :
  Exists (λ it, not_prod (by_id !! CheckoutItem.product_id it) = true) items →
  ∃ e, price_items by_id items a li = Raise e.
Proof.
  intros Hex. revert a li.
  induction Hex as [it rest Hit | it rest _ IH]; intros a li; cbn [price_items].
  - rewrite Hit. eauto.
  - destruct (not_prod _); [eauto|].
    destruct (unit_price _) as [p|e]; simpl; eauto.
Qed.

(** On a cart of priced catalog products the loop adds up the
    specification's total. *)
Lemma price_items_total by_id items a li :
  Forall (λ it, is_Some (Spec.catalog_price by_id (CheckoutItem.product_id it))) items →
  ∃ li', price_items by_id items a li = Ok (a + Spec.amount_total by_id items, li').
Proof.
  intros Hall. revert a li.
  induction Hall as [|it rest [p Hp] _ IH]; intros a li.
  - exists li. cbn. by rewrite Z.add_0_r.
  - destruct (catalog_price_priceable _ _ _ Hp) as [Hn Hu].
    rewrite (price_items_step _ _ _ _ _ p) by done.
    destruct (IH (a + p * Z.max 1 (CheckoutItem.quantity it))
                (li ++ [ {| li_name := dict_get (default ∅ (by_id !! CheckoutItem.product_id it)) "title";
                            li_amount := p;
                            li_currency := dict_get_or (default ∅ (by_id !! CheckoutItem.product_id it))
                                             "currency" (VStr "usd");
                            li_quantity := Z.max 1 (CheckoutItem.quantity it) |} ]))
      as [li' ->].
    exists li'. do 2 f_equal.
    change (Spec.amount_total by_id (it :: rest))
      with (Spec.line_cents by_id it + Spec.amount_total by_id rest).
    unfold Spec.line_cents. rewrite Hp.
    change (default 0 (Some p)) with p. lia.
Qed.

Lemma py_sum_from (l : list Z) a : foldl Z.add a l = a + foldr Z.add 0 l.
Proof. revert a. induction l as [|x l IH]; intros a; simpl; [lia|]. rewrite IH. lia. Qed.

(** When no quantity is below 1 the raw sum is the clamped sum. *)
Lemma py_sum_clamped items :
  Forall (λ it, 1 ≤ CheckoutItem.quantity it) items →
  py_sum (CheckoutItem.quantity <$> items) = Spec.clamped_quantity items.
Proof.
  intros Hall. unfold py_sum. rewrite py_sum_from, Z.add_0_l.
  induction Hall as [|it rest Hq _ IH]; [done|].
  cbn. rewrite IH. unfold Spec.clamped_quantity. lia.
Qed.
End pricing_facts.

(** *** The stored order *)

Section order_facts.
Context {builtins : Builtins} {host : Host}.

(** The fields of the document written for a validated order. *)
Lemma order_document payload first a order oid :
  order_of payload first a = Ok order →
  let d : Doc := <["_id" := VOid oid]> (model_dump order) in
  d !! "_id" = Some (VOid oid)
  ∧ d !! "status" = Some (VStr "created")
  ∧ d !! "product_id" = Some (VStr (CheckoutItem.product_id first))
  ∧ d !! "quantity"
    = Some (VInt (py_sum (CheckoutItem.quantity <$> CheckoutRequest.items payload)))
  ∧ d !! "amount_total_cents" = Some (VInt a)
  ∧ d !! "customer_email" = Some (opt_str (CheckoutRequest.customer_email payload))
  ∧ d !! "checkout_session_id" = Some VNone.
Proof.
  unfold order_of, OrderSchema. case_decide; [|done]. intros [= <-].
  unfold model_dump, Order_model. cbn [Order.product_id Order.quantity
    Order.amount_total_cents Order.currency Order.status Order.customer_email
    Order.checkout_session_id Order.created_at Order.updated_at opt_str].
  split_and!; by simplify_map_eq.
Qed.

Lemma order_of_valid payload first a order :
  order_of payload first a = Ok order →
  1 ≤ py_sum (CheckoutItem.quantity <$> CheckoutRequest.items payload) ∧ 0 ≤ a.
Proof. unfold order_of, OrderSchema. by case_decide. Qed.

Lemma order_of_ok payload first a :
  1 ≤ py_sum (CheckoutItem.quantity <$> CheckoutRequest.items payload) →
  0 ≤ a → ∃ order, order_of payload first a = Ok order.
Proof.
  intros Hq Ha. unfold order_of, OrderSchema.
  rewrite decide_True by done. eauto.
Qed.

(** A run whose reads, pricing, validation and write all succeed stores
    the order and returns. *)
Lemma checkout_persists payload w first rest priced order :
  CheckoutRequest.items payload = first :: rest →
  (∀ msg, head (faults w) ≠ Some (Some msg)) →
  price_items (index_by_id (collection w "product"))
    (CheckoutRequest.items payload) 0 [] = Ok priced →
  order_of payload first priced.1 = Ok order →
  (∀ msg, head (tail (faults w)) ≠ Some (Some msg)) →
  (create_checkout_session payload w).1
  = Ok (checkout_response (index_by_id (collection w "product"))
          payload (alloc w (issued w))).
Proof.
  intros Hitems Hr Hprice Horder Hw.
  destruct (checkout_run payload w)
    as [[_ [e He]] | (f & r & pr & o & Hi & _ & Hp & Ho & _ & _ & Hres)];
    [|done].
  exfalso. revert He.
  unfold create_checkout_session. rewrite Hitems in *.
  destruct (get_documents_ok "product" None w Hr) as (w1 & Hread & Hs1 & Hf1 & Hi1 & Ha1).
  unfold bind at 1. rewrite Hread. cbn [from_option].
  unfold bind at 1, lift at 1. rewrite Hprice.
  unfold bind at 1, lift at 1. unfold order_of in Horder.
  rewrite Hitems in Horder. rewrite Horder.
  unfold bind at 1.
  destruct (create_document_ok "order" order w1) as (w2 & Hwrite & _).
  { by rewrite Hf1. }
  rewrite Hwrite.
  by destruct (env_truthy _); [destruct (stripe_session _ _ _ _)|].
Qed.
End order_facts.

(** *** The persisted order: quantity and total *)

Section order_claims.
Context {builtins : Builtins} {host : Host}.

(** X1. The fields of the order a checkout stores: status "created", the
    product id of the first line item, the e-mail of the request, and as
    quantity the plain sum of the requested quantities, as line 179 of
    [main.py] computes it; that sum is the clamped one when no requested
    quantity is below 1. *)
Lemma checkout_order_fields payload w :
  collection (create_checkout_session payload w).2 "order" = collection w "order"
  ∨ ∃ first rest d,
      CheckoutRequest.items payload = first :: rest
      ∧ collection (create_checkout_session payload w).2 "order"
        = collection w "order" ++ [d]
      ∧ d !! "status" = Some (VStr "created")
      ∧ d !! "product_id" = Some (VStr (CheckoutItem.product_id first))
      ∧ d !! "customer_email"
        = Some (opt_str (CheckoutRequest.customer_email payload))
      ∧ d !! "quantity"
        = Some (VInt (py_sum (CheckoutItem.quantity <$> CheckoutRequest.items payload)))
      ∧ (Forall (λ it, 1 ≤ CheckoutItem.quantity it) (CheckoutRequest.items payload) →
         d !! "quantity"
         = Some (VInt (Spec.clamped_quantity (CheckoutRequest.items payload)))).
Proof.
  destruct (checkout_run payload w)
    as [[Hs _] | (f & r & pr & o & Hi & _ & Hp & Ho & _ & Hs & _)].
  - left. by apply collection_same.
  - right. exists f, r. eexists. split; [done|].
    split; [by eapply collection_insert_eq|].
    apply (order_document _ _ _ _ (alloc w (issued w))) in Ho
      as (_ & Hst & Hpid & Hq & _ & Hmail & _).
    split_and!; try done.
    intros Hall. by rewrite <- py_sum_clamped.
Qed.

(** C2. For a non-empty cart whose product ids all resolve to catalog
    products with an integer [price_cents], the order a checkout stores has
    [amount_total_cents] equal to the sum over the line items of
    price_cents × max(1, quantity); and the checkout does store the order
    and return when the store answers both calls and the order passes the
    schema's bounds. *)
Theorem checkout_amount_total payload w :
  CheckoutRequest.items payload ≠ [] →
  Forall (λ it, is_Some (Spec.catalog_price (index_by_id (collection w "product"))
                           (CheckoutItem.product_id it)))
    (CheckoutRequest.items payload) →
  (∀ response, (create_checkout_session payload w).1 = Ok response →
     ∃ d, collection (create_checkout_session payload w).2 "order"
          = collection w "order" ++ [d]
        ∧ d !! "amount_total_cents"
          = Some (VInt (Spec.amount_total (index_by_id (collection w "product"))
                          (CheckoutRequest.items payload))))
  ∧ ((∀ msg, head (faults w) ≠ Some (Some msg)) →
     (∀ msg, head (tail (faults w)) ≠ Some (Some msg)) →
     1 ≤ py_sum (CheckoutItem.quantity <$> CheckoutRequest.items payload) →
     0 ≤ Spec.amount_total (index_by_id (collection w "product"))
           (CheckoutRequest.items payload) →
     ∃ response, (create_checkout_session payload w).1 = Ok response).
Proof.
  intros Hne Hall.
  destruct (price_items_total _ _ 0 [] Hall) as [li Hprice].
  rewrite Z.add_0_l in Hprice.
  split.
  - intros response Hok.
    destruct (checkout_run payload w)
      as [[_ [e He]] | (f & r & pr & o & Hi & _ & Hp & Ho & _ & Hs & _)];
      [congruence|].
    rewrite Hprice in Hp. injection Hp as <-.
    eexists. split; [by eapply collection_insert_eq|].
    by apply (order_document _ _ _ _ (alloc w (issued w))) in Ho as (_&_&_&_&?&_).
  - intros Hr Hw Hq Ha.
    assert (∃ first rest, CheckoutRequest.items payload = first :: rest)
      as (first & rest & Hitems)
      by (destruct (CheckoutRequest.items payload); [done | eauto]).
    destruct (order_of_ok payload first _ Hq Ha) as [order Ho].
    eexists. by eapply checkout_persists.
Qed.

(** An empty cart is refused before anything is read or written. *)
Lemma checkout_empty_cart payload w :
  CheckoutRequest.items payload = [] →
  create_checkout_session payload w
  = (Raise (HTTPException 400 "No items provided"), w).
Proof. intros Hitems. unfold create_checkout_session. by rewrite Hitems. Qed.

(** The first line item that does not resolve ends the request with 404,
    when the catalog was read and the items before it were priced. *)
Lemma checkout_not_found payload w pre it post :
  (∀ msg, head (faults w) ≠ Some (Some msg)) →
  CheckoutRequest.items payload = pre ++ it :: post →
  Forall (priceable (index_by_id (collection w "product"))) pre →
  not_prod (index_by_id (collection w "product") !! CheckoutItem.product_id it) = true →
  (create_checkout_session payload w).1
  = Raise (HTTPException 404 ("Product not found: " +:+ CheckoutItem.product_id it)).
Proof.
  intros Hr Hitems Hpre Hit.
  unfold create_checkout_session.
  destruct (CheckoutRequest.items payload) as [|first rest] eqn:Hi.
  { by destruct pre. }
  destruct (get_documents_ok "product" None w Hr) as (w1 & Hread & _).
  unfold bind at 1. rewrite Hread. cbn [from_option].
  unfold bind at 1, lift at 1.
  by rewrite Hitems, (price_items_not_found _ pre it post).
Qed.

(** A cart that is empty or holds an item that does not resolve never
    leads to a write. *)
Lemma checkout_bad_cart_no_write payload w :
  CheckoutRequest.items payload = []
  ∨ Exists (λ it, not_prod (index_by_id (collection w "product")
                              !! CheckoutItem.product_id it) = true)
      (CheckoutRequest.items payload) →
  store (create_checkout_session payload w).2 = store w
  ∧ ∃ e, (create_checkout_session payload w).1 = Raise e.
Proof.
  intros Hbad.
  destruct (checkout_run payload w)
    as [? | (f & r & pr & o & Hi & _ & Hp & _)]; [done|].
  destruct Hbad as [Hnil | Hex]; [congruence|].
  destruct (price_items_unresolved _ _ 0 [] Hex) as [e He]. congruence.
Qed.

(** C3, amended. An empty cart is refused with status 400 before anything
    is read or written. When the catalog read succeeds and a line item does
    not resolve, the checkout raises 404 "Product not found" for the first
    such item, provided [int()] accepts the [price_cents] of every line item
    before it. In either case, and whatever else happens, no order is
    stored: the request raises and every collection is as before. *)
Theorem checkout_rejects_without_order payload w :
  (CheckoutRequest.items payload = [] →
     create_checkout_session payload w
     = (Raise (HTTPException 400 "No items provided"), w))
  ∧ (∀ pre it post,
       (∀ msg, head (faults w) ≠ Some (Some msg)) →
       CheckoutRequest.items payload = pre ++ it :: post →
       Forall (priceable (index_by_id (collection w "product"))) pre →
       not_prod (index_by_id (collection w "product") !! CheckoutItem.product_id it) = true →
       (create_checkout_session payload w).1
       = Raise (HTTPException 404 ("Product not found: " +:+ CheckoutItem.product_id it)))
  ∧ (CheckoutRequest.items payload = []
     ∨ Exists (λ it, not_prod (index_by_id (collection w "product")
                                 !! CheckoutItem.product_id it) = true)
         (CheckoutRequest.items payload) →
     store (create_checkout_session payload w).2 = store w
     ∧ ∃ e, (create_checkout_session payload w).1 = Raise e).
Proof.
  split_and!.
  - apply checkout_empty_cart.
  - intros pre it post. apply checkout_not_found.
  - apply checkout_bad_cart_no_write.
Qed.
End order_claims.

(** *** The checkout on concrete carts *)

Module Scenarios.
Import Examples.

(** C1. The stored quantity is the plain sum of the requested quantities,
    not the sum of the clamped ones: for the quantities 3 and -1 of a known
    product the order is stored with quantity 2 where the clamped sum is 4,
    and for the single quantity 0 the order fails the schema's [ge=1] bound,
    so the request ends in a validation error and nothing is stored. *)
Theorem checkout_quantity_not_clamped :
  (∃ response, (checkout (cart [item "P1" 3; item "P1" (-1)]) (world_with [P1])).1
               = Ok response)
  ∧ quantities (checkout (cart [item "P1" 3; item "P1" (-1)]) (world_with [P1])).2
    = [Some (VInt 2)]
  ∧ Spec.clamped_quantity [item "P1" 3; item "P1" (-1)] = 4
  ∧ (checkout (cart [item "P1" 0]) (world_with [P1])).1
    = Raise (PyErr ValidationError "validation error for Order")
  ∧ collection (checkout (cart [item "P1" 0]) (world_with [P1])).2 "order" = []
  ∧ Spec.clamped_quantity [item "P1" 0] = 1.
Proof.
  split_and!; [eexists|..]; vm_compute; reflexivity.
Qed.

(** The cart [P1 × 2] with P1 at 5900 cents: an order of 11800 cents. *)
Lemma checkout_amount_total_P1_twice :
  ∃ d, collection (checkout (cart [item "P1" 2]) (world_with [P1])).2 "order"
       = collection (world_with [P1]) "order" ++ [d]
     ∧ d !! "amount_total_cents" = Some (VInt 11800).
Proof.
  refine (proj1 (@checkout_amount_total plain_builtins bare_host
                   (cart [item "P1" 2]) (world_with [P1]) _ _) _ _).
  - discriminate.
  - repeat constructor. vm_compute. eauto.
  - vm_compute. reflexivity.
Defined.

(** An unknown product id listed after a product whose stored price is the
    string "12.50": the conversion of that price fails first, and the
    request ends in a [ValueError], not in a 404. *)
Lemma checkout_unknown_id_after_unparsable_price :
  index_by_id (builtins := plain_builtins)
    (collection (world_with [<["price_cents" := VStr "12.50"]> P1]) "product")
    !! "nope" = None
  ∧ (checkout (cart [item "P1" 1; item "nope" 1])
       (world_with [<["price_cents" := VStr "12.50"]> P1])).1
    = Raise (PyErr ValueError "invalid literal for int() with base 10")
  ∧ ¬ ∃ code detail,
        (checkout (cart [item "P1" 1; item "nope" 1])
           (world_with [<["price_cents" := VStr "12.50"]> P1])).1
        = Raise (HTTPException code detail).
Proof.
  assert (E : (checkout (cart [item "P1" 1; item "nope" 1])
                 (world_with [<["price_cents" := VStr "12.50"]> P1])).1
              = Raise (PyErr ValueError "invalid literal for int() with base 10"))
    by (vm_compute; reflexivity).
  split_and!; [vm_compute; reflexivity | exact E |].
  intros (code & detail & Hc). rewrite E in Hc. discriminate.
Qed.

(** The unknown id "nope" after the well-priced P1: 404, and no order. *)
Lemma checkout_rejects_unknown_id :
  (checkout (cart [item "P1" 1; item "nope" 1]) (world_with [P1])).1
  = Raise (HTTPException 404 "Product not found: nope")
  ∧ store (checkout (cart [item "P1" 1; item "nope" 1]) (world_with [P1])).2
    = store (world_with [P1]).
Proof.
  pose proof (@checkout_rejects_without_order plain_builtins bare_host
                (cart [item "P1" 1; item "nope" 1]) (world_with [P1]))
    as (_ & H404 & Hnone).
  split.
  - apply (H404 [item "P1" 1] (item "nope" 1) []).
    + intros msg. vm_compute. discriminate.
    + reflexivity.
    + repeat constructor; vm_compute; eauto.
    + vm_compute. reflexivity.
  - apply Hnone. right. apply Exists_cons_tl, Exists_cons_hd.
    vm_compute. reflexivity.
Defined.
End Scenarios.

(** *** The seeder *)

Section seeder_facts.
Context {builtins : Builtins} {host : Host}.

Lemma seed_one_frame s name w :
  name ≠ "product" → collection (seed_one s w).2 name = collection w name.
Proof.
  intros Hne. unfold seed_one, try_exceptM, bind.
  destruct (create_document "product" s w) as [r w1] eqn:Hc.
  apply create_document_cases in Hc as [(msg & -> & Hs) | (-> & Hs)]; simpl.
  - by apply collection_same.
  - eapply collection_insert_ne; [exact Hs | congruence].
Qed.

Lemma seed_one_ok s w : (seed_one s w).1 = Ok tt.
Proof.
  unfold seed_one, try_exceptM, bind.
  destruct (create_document "product" s w) as [[oid|e] w1]; done.
Qed.

Lemma for_each_seed_frame l name w :
  name ≠ "product" →
  collection (for_each l seed_one w).2 name = collection w name.
Proof.
  intros Hne. revert w. induction l as [|s l IH]; intros w; [done|].
  cbn [for_each]. unfold bind.
  pose proof (seed_one_ok s w) as Hok. pose proof (seed_one_frame s name w Hne) as Hfr.
  destruct (seed_one s w) as [r w1]. simpl in Hok, Hfr. subst r.
  by rewrite IH.
Qed.

(** The existence check reads the store once and changes no collection. *)
Lemma seeding_not_needed_store w : store (seeding_not_needed w).2 = store w.
Proof.
  unfold seeding_not_needed, try_exceptM, bind.
  destruct (get_documents "product" (Some 1%nat) w) as [r w1] eqn:Hg.
  apply get_documents_cases in Hg as (Hs & _ & _ & _ & [[msg ->] | ->]); [done|].
  by destruct (from_option _ _ _).
Qed.

Lemma seeding_not_needed_ok w : ∃ b, (seeding_not_needed w).1 = Ok b.
Proof.
  unfold seeding_not_needed, try_exceptM, bind.
  destruct (get_documents "product" (Some 1%nat) w) as [[docs|e] w1]; simpl; eauto.
  destruct docs; simpl; eauto.
Qed.

(** The check answers "return" when the query raises or finds a product. *)
Lemma seeding_not_needed_true w r w1 :
  get_documents "product" (Some 1%nat) w = (r, w1) →
  (∃ e, r = Raise e) ∨ (∃ docs, r = Ok docs ∧ docs ≠ []) →
  (seeding_not_needed w).1 = Ok true.
Proof.
  intros Hg Hr. unfold seeding_not_needed, try_exceptM, bind. rewrite Hg.
  destruct Hr as [[e ->] | (docs & -> & Hne)]; [done|].
  by destruct docs.
Qed.

Lemma ensure_sample_products_frame name w :
  name ≠ "product" →
  collection (ensure_sample_products w).2 name = collection w name.
Proof.
  intros Hne. unfold ensure_sample_products. unfold bind at 1.
  pose proof (seeding_not_needed_store w) as Hs.
  destruct (seeding_not_needed w) as [[b|e] w1]; simpl in Hs;
    [|by apply collection_same].
  destruct b; [by apply collection_same|].
  unfold bind, lift. destruct samples as [l|e]; [|by apply collection_same].
  change (collection (for_each l seed_one w1).2 name = collection w name).
  rewrite for_each_seed_frame by done. by apply collection_same.
Qed.

(** C6. [ensure_sample_products] changes no collection (so inserts no
    product) whenever its existence query raises or returns a non-empty
    result; hence once a product exists, running the seeder twice leaves the
    product collection exactly as it was: no sample is inserted again. *)
Theorem ensure_sample_products_idempotent w :
  (∀ r w1, get_documents "product" (Some 1%nat) w = (r, w1) →
     (∃ e, r = Raise e) ∨ (∃ docs, r = Ok docs ∧ docs ≠ []) →
     store (ensure_sample_products w).2 = store w
     ∧ (ensure_sample_products w).1 = Ok tt)
  ∧ (collection w "product" ≠ [] →
     collection (ensure_sample_products w).2 "product" = collection w "product"
     ∧ collection (ensure_sample_products (ensure_sample_products w).2).2 "product"
       = collection w "product").
Proof.
  assert (Hno : ∀ w0 r w1, get_documents "product" (Some 1%nat) w0 = (r, w1) →
            (∃ e, r = Raise e) ∨ (∃ docs, r = Ok docs ∧ docs ≠ []) →
            store (ensure_sample_products w0).2 = store w0
            ∧ (ensure_sample_products w0).1 = Ok tt).
  { intros w0 r w1 Hg Hr.
    pose proof (seeding_not_needed_true w0 r w1 Hg Hr) as Ht.
    pose proof (seeding_not_needed_store w0) as Hs.
    unfold ensure_sample_products, bind.
    destruct (seeding_not_needed w0) as [rb wb]. simpl in Ht, Hs. by subst rb. }
  assert (Hkeep : ∀ w0, collection w0 "product" ≠ [] →
            collection (ensure_sample_products w0).2 "product" = collection w0 "product").
  { intros w0 Hne.
    destruct (get_documents "product" (Some 1%nat) w0) as [r w1] eqn:Hg.
    apply collection_same. eapply Hno; [done|].
    apply get_documents_cases in Hg as (_ & _ & _ & _ & [[msg ->] | ->]); [eauto|].
    right. eexists. split; [done|]. simpl.
    by destruct (collection w0 "product"). }
  split; [apply Hno|].
  intros Hne. split; [by apply Hkeep|].
  rewrite Hkeep; rewrite Hkeep; done.
Qed.
End seeder_facts.

(** *** Frames of the handlers *)

Section frames.
Context {builtins : Builtins} {host : Host}.

(** A checkout writes to the order collection only. *)
Lemma checkout_frame payload name w :
  name ≠ "order" →
  collection (create_checkout_session payload w).2 name = collection w name.
Proof.
  intros Hne.
  destruct (checkout_run payload w)
    as [[Hs _] | (f & r & pr & o & _ & _ & _ & _ & _ & Hs & _)].
  - by apply collection_same.
  - eapply collection_insert_ne; [exact Hs | congruence].
Qed.

(** The Google Sheets adapter never raises. *)
Lemma append_lead_to_google_sheets_total lead :
  ∃ r, append_lead_to_google_sheets lead = Ok r.
Proof.
  unfold append_lead_to_google_sheets.
  destruct (_ || _); [eauto|]. destruct (negb google_installed); [eauto|].
  unfold try_except at 1.
  destruct (_ ≫= _) as [r|e]; eauto.
Qed.

(** A lead intake writes to the lead collection only. *)
Lemma create_lead_frame lead name w :
  name ≠ "lead" → collection (create_lead lead w).2 name = collection w name.
Proof.
  intros Hne. unfold create_lead, LeadSchema.
  unfold bind at 1, lift at 1. unfold bind at 1. unfold try_exceptM.
  destruct (create_document "lead" lead w) as [r w1] eqn:Hc.
  apply create_document_cases in Hc as [(msg & -> & Hs) | (-> & Hs)].
  - by apply collection_same.
  - unfold bind, lift.
    destruct (append_lead_to_google_sheets_total lead) as [g ->]. simpl.
    eapply collection_insert_ne; [exact Hs | congruence].
Qed.

(** The product listing writes to the product collection only. *)
Lemma list_products_frame name w :
  name ≠ "product" → collection (list_products w).2 name = collection w name.
Proof.
  intros Hne. unfold list_products. unfold bind at 1.
  pose proof (ensure_sample_products_frame name w Hne) as Hfr.
  destruct (ensure_sample_products w) as [[[]|e] w1]; simpl in Hfr; [|done].
  unfold bind.
  pose proof (get_documents_store "product" None w1) as Hs.
  destruct (get_documents "product" None w1) as [[docs|e] w2]; simpl in Hs |- *;
    rewrite <- Hfr; by apply collection_same.
Qed.
End frames.

(** *** Fallback, session id, falsy prices, catalog frame *)

Section checkout_claims.
Context {builtins : Builtins} {host : Host}.

(** The Stripe block raises whenever the library is missing or the session
    request raises. *)
Lemma stripe_session_raises key by_id payload oid :
  stripe_installed = false ∨ (∀ params, ∃ e, Session_create params = Raise e) →
  ∃ e, stripe_session key by_id payload oid = Raise e.
Proof.
  intros Hprov. unfold stripe_session.
  destruct stripe_installed eqn:Hinst; simpl; [|eauto].
  destruct Hprov as [? | Hraise]; [done|].
  destruct (stripe_items _ _ _) as [items|e]; simpl; [|eauto].
  match goal with |- context [Session_create ?p] => destruct (Hraise p) as [e ->] end.
  simpl. eauto.
Qed.

(** C4. Whenever a checkout has stored its order and either no Stripe key
    is configured or the Stripe block raises, the handler returns (it does
    not raise) the mock response: the URL "https://checkout.mock/" followed
    by the id of the stored order, with a note; and the stored order has
    status "created". *)
Theorem checkout_falls_back_to_mock payload w :
  collection (create_checkout_session payload w).2 "order" ≠ collection w "order" →
  env_truthy (getenv "STRIPE_SECRET_KEY") = false
  ∨ (∃ e, stripe_session (default "" (getenv "STRIPE_SECRET_KEY"))
            (index_by_id (collection w "product")) payload (alloc w (issued w))
          = Raise e) →
  ∃ oid d note_text,
    (create_checkout_session payload w).1
    = Ok {| checkout_url := "https://checkout.mock/" +:+ oid;
            order_id := oid;
            note := Some note_text |}
    ∧ collection (create_checkout_session payload w).2 "order"
      = collection w "order" ++ [d]
    ∧ d !! "_id" = Some (VOid oid)
    ∧ d !! "status" = Some (VStr "created").
Proof.
  intros Hstored Hprov.
  destruct (checkout_run payload w)
    as [[Hs _] | (f & r & pr & o & _ & _ & _ & Ho & _ & Hs & Hres)].
  { destruct Hstored. by apply collection_same. }
  apply (order_document _ _ _ _ (alloc w (issued w))) in Ho as (Hid & Hst & _).
  eexists (alloc w (issued w)), _, _.
  split_and!; [|by eapply collection_insert_eq|exact Hid|exact Hst].
  rewrite Hres. unfold checkout_response, mock_checkout.
  destruct Hprov as [-> | [e ->]]; [done|].
  by destruct (env_truthy _).
Qed.

(** C8. The order document a checkout stores has [checkout_session_id]
    [None], and a checkout changes the order collection by at most
    appending that one document; this holds in particular when the Stripe
    session is created and its URL returned. No other handler writes to the
    order collection. *)
Theorem checkout_session_id_stays_none payload w :
  (collection (create_checkout_session payload w).2 "order" = collection w "order"
   ∨ ∃ d, collection (create_checkout_session payload w).2 "order"
          = collection w "order" ++ [d]
        ∧ d !! "checkout_session_id" = Some VNone)
  ∧ (∀ response,
       env_truthy (getenv "STRIPE_SECRET_KEY") = true →
       stripe_session (default "" (getenv "STRIPE_SECRET_KEY"))
         (index_by_id (collection w "product")) payload (alloc w (issued w))
       = Ok response →
       collection (create_checkout_session payload w).2 "order" ≠ collection w "order" →
       (create_checkout_session payload w).1 = Ok response
       ∧ ∃ d, collection (create_checkout_session payload w).2 "order"
              = collection w "order" ++ [d]
            ∧ d !! "checkout_session_id" = Some VNone)
  ∧ (∀ lead, collection (create_lead lead w).2 "order" = collection w "order")
  ∧ collection (list_products w).2 "order" = collection w "order".
Proof.
  assert (Hcases :
    collection (create_checkout_session payload w).2 "order" = collection w "order"
    ∨ ∃ d, collection (create_checkout_session payload w).2 "order"
           = collection w "order" ++ [d]
         ∧ d !! "checkout_session_id" = Some VNone).
  { destruct (checkout_run payload w)
      as [[Hs _] | (f & r & pr & o & _ & _ & _ & Ho & _ & Hs & _)].
    - left. by apply collection_same.
    - right. eexists. split; [by eapply collection_insert_eq|].
      by apply (order_document _ _ _ _ (alloc w (issued w))) in Ho as (_&_&_&_&_&_&?). }
  split_and!; [exact Hcases| |by intros; apply create_lead_frame
              |by apply list_products_frame].
  intros response Hkey Hsess Hstored.
  destruct Hcases as [? | Hd]; [done|]. split; [|exact Hd].
  destruct (checkout_run payload w)
    as [[Hs _] | (f & r & pr & o & _ & _ & _ & _ & _ & _ & Hres)].
  { destruct Hstored. by apply collection_same. }
  rewrite Hres. unfold checkout_response. by rewrite Hkey, Hsess.
Qed.

(** The values Python counts as false. *)
Lemma falsy_values v :
  truthy v = false ↔ v = VNone ∨ v = VBool false ∨ v = VInt 0 ∨ v = VStr "" ∨ v = VList [].
Proof.
  split.
  - destruct v as [|[]|n|s| |[|x l]]; simpl; try done; eauto 6.
    + destruct (Z.eqb_spec n 0); [subst; eauto 6 | done].
    + destruct s; [eauto 6 | done].
  - intros [->|[->|[->|[->| ->]]]]; done.
Qed.

Lemma falsy_missing (prod : Doc) k : prod !! k = None → truthy (dict_get prod k) = false.
Proof. unfold dict_get. by intros ->. Qed.

(** C9. A line item whose product resolves but holds a falsy [price_cents]
    (the key missing, [None], 0, the empty string, ...) is priced at 0: the
    pricing loop goes on without raising, with [amount_total] unchanged and a
    line item of amount 0, and the Stripe loop records a unit amount of 0. *)
Theorem falsy_price_counts_as_zero by_id it rest prod a li sl :
  by_id !! CheckoutItem.product_id it = Some prod →
  prod ≠ ∅ →
  truthy (dict_get prod "price_cents") = false →
  unit_price prod = Ok 0
  ∧ price_items by_id (it :: rest) a li
    = price_items by_id rest a
        (li ++ [ {| li_name := dict_get prod "title";
                    li_amount := 0;
                    li_currency := dict_get_or prod "currency" (VStr "usd");
                    li_quantity := Z.max 1 (CheckoutItem.quantity it) |} ])
  ∧ stripe_items by_id (it :: rest) sl
    = stripe_items by_id rest
        (sl ++ [ {| price_data_currency := dict_get_or prod "currency" (VStr "usd");
                    price_data_product_name := dict_get prod "title";
                    price_data_unit_amount := 0;
                    sli_quantity := Z.max 1 (CheckoutItem.quantity it) |} ]).
Proof.
  intros Hprod Hne Hfalsy.
  pose proof (unit_price_falsy prod Hfalsy) as Hu.
  split_and!; [done| |].
  - rewrite (price_items_step _ _ _ _ _ 0); rewrite ?Hprod; try done.
    + simpl. by rewrite Z.add_0_r.
    + simpl. apply bool_decide_eq_false. intros Hsz.
      by apply map_size_empty_inv in Hsz.
  - cbn [stripe_items]. by rewrite Hprod, Hu.
Qed.

(** C10. A checkout leaves the product collection as it was, whatever its
    outcome: it never inserts a product and never seeds. On an empty catalog
    a non-empty cart is answered with 404 and the catalog stays empty. A
    lead intake does not touch the product collection either. *)
Theorem checkout_preserves_catalog payload w :
  collection (create_checkout_session payload w).2 "product" = collection w "product"
  ∧ (collection w "product" = [] →
     CheckoutRequest.items payload ≠ [] →
     (∀ msg, head (faults w) ≠ Some (Some msg)) →
     (∃ detail, (create_checkout_session payload w).1
                = Raise (HTTPException 404 detail))
     ∧ collection (create_checkout_session payload w).2 "product" = [])
  ∧ (∀ lead, collection (create_lead lead w).2 "product" = collection w "product").
Proof.
  pose proof (checkout_frame payload "product" w ltac:(done)) as Hfr.
  split_and!; [exact Hfr| |by intros; apply create_lead_frame].
  intros Hempty Hne Hr. split; [|by rewrite Hfr].
  destruct (CheckoutRequest.items payload) as [|first rest] eqn:Hitems; [done|].
  eexists.
  apply (checkout_not_found payload w [] first rest);
    [done|done|constructor|].
  by rewrite Hempty.
Qed.
End checkout_claims.

(** *** Lead intake and the spreadsheet credential *)

Section lead_claims.
Context {builtins : Builtins} {host : Host}.

Lemma env_truthy_set (s : string) : s ≠ "" → env_truthy (Some s) = true.
Proof. intros Hs. simpl. by rewrite negb_true_iff, String.eqb_neq. Qed.

(** On a configured host with the Google libraries installed, the adapter
    is its outer [try] around loading the credential and appending. *)
Lemma append_lead_configured lead sid cred :
  getenv "GOOGLE_SHEETS_SPREADSHEET_ID" = Some sid → sid ≠ "" →
  getenv "GOOGLE_SHEETS_SERVICE_ACCOUNT_JSON" = Some cred → cred ≠ "" →
  google_installed = true →
  append_lead_to_google_sheets lead
  = try_except
      (info ← load_service_account_info cred;
       append_values info sid (getenv_or "GOOGLE_SHEETS_LEADS_RANGE" "Leads!A:F") lead)
      any_Exception (λ _, Ok None).
Proof.
  intros Hsid Hsid' Hcred Hcred' Hinst. unfold append_lead_to_google_sheets.
  rewrite Hsid, Hcred, Hinst, !env_truthy_set by done. reflexivity.
Qed.

(** [create_lead] on a store that answers: "ok", the new id, and the
    adapter's result. *)
Lemma create_lead_stored lead w g :
  append_lead_to_google_sheets lead = Ok g →
  (∀ msg, head (faults w) ≠ Some (Some msg)) →
  (create_lead lead w).1
  = Ok {| status := "ok"; id := alloc w (issued w); google_range := g |}
  ∧ collection (create_lead lead w).2 "lead"
    = collection w "lead"
      ++ [<["_id" := VOid (alloc w (issued w))]> (model_dump lead)].
Proof.
  intros Hg Hw.
  destruct (create_document_ok "lead" lead w Hw) as (w1 & Hc & Hs & _).
  assert (create_lead lead w
          = (Ok {| status := "ok"; id := alloc w (issued w); google_range := g |},
             w1)) as ->.
  { unfold create_lead, LeadSchema. unfold bind at 1, lift at 1.
    unfold bind at 1, try_exceptM. rewrite Hc.
    unfold bind, lift. by rewrite Hg. }
  split; [done|]. by eapply collection_insert_eq.
Qed.

(** C5. The service-account credential is parsed as JSON first; only when
    that raises a JSON decoding error is it base64-decoded and parsed again;
    when the credential cannot be loaded the adapter returns [None] without
    raising, and [create_lead], once the lead is stored, answers "ok" with
    the new id and [google_range] [None].

    For the adapter itself, on a host with both settings non-empty and the
    Google libraries installed: a credential that parses directly is the one
    the credentials, the service and the append request are built from,
    whatever base64 decoding would give; a credential whose direct parse
    raises a JSON decoding error is used in its base64-decoded form; and the
    adapter returns [None] when the direct parse raises another error, when
    the decoding raises, or when the decoded text does not parse. In every
    case the adapter returns, and [create_lead] on an answering store returns
    "ok" with what the adapter returned. *)
Theorem sheets_credential_fallback lead w :
  (∀ cred info, json_loads cred = Ok info →
     load_service_account_info cred = Ok info)
  ∧ (∀ cred e, json_loads cred = Raise e → is_JSONDecodeError e = true →
       load_service_account_info cred
       = (decoded ← b64decode_utf8 cred; json_loads decoded))
  ∧ (∀ e, load_service_account_info
            (default "" (getenv "GOOGLE_SHEETS_SERVICE_ACCOUNT_JSON")) = Raise e →
       append_lead_to_google_sheets lead = Ok None
       ∧ ((∀ msg, head (faults w) ≠ Some (Some msg)) →
          (create_lead lead w).1
          = Ok {| status := "ok"; id := alloc w (issued w); google_range := None |}
          ∧ collection (create_lead lead w).2 "lead"
            = collection w "lead"
              ++ [<["_id" := VOid (alloc w (issued w))]> (model_dump lead)]))
  ∧ (∀ sid cred,
       getenv "GOOGLE_SHEETS_SPREADSHEET_ID" = Some sid → sid ≠ "" →
       getenv "GOOGLE_SHEETS_SERVICE_ACCOUNT_JSON" = Some cred → cred ≠ "" →
       google_installed = true →
       (∀ info, json_loads cred = Ok info →
          append_lead_to_google_sheets lead
          = try_except
              (append_values info sid
                 (getenv_or "GOOGLE_SHEETS_LEADS_RANGE" "Leads!A:F") lead)
              any_Exception (λ _, Ok None))
       ∧ (∀ e decoded info,
            json_loads cred = Raise e → is_JSONDecodeError e = true →
            b64decode_utf8 cred = Ok decoded → json_loads decoded = Ok info →
            append_lead_to_google_sheets lead
            = try_except
                (append_values info sid
                   (getenv_or "GOOGLE_SHEETS_LEADS_RANGE" "Leads!A:F") lead)
                any_Exception (λ _, Ok None))
       ∧ (∀ e, json_loads cred = Raise e →
            is_JSONDecodeError e = false
            ∨ (∃ e', b64decode_utf8 cred = Raise e')
            ∨ (∃ decoded e', b64decode_utf8 cred = Ok decoded
                             ∧ json_loads decoded = Raise e') →
            append_lead_to_google_sheets lead = Ok None)
       ∧ (∀ info credentials service updated_range,
            json_loads cred = Ok info
            ∨ (∃ e decoded, json_loads cred = Raise e ∧ is_JSONDecodeError e = true
                            ∧ b64decode_utf8 cred = Ok decoded
                            ∧ json_loads decoded = Ok info) →
            from_service_account_info info
              ["https://www.googleapis.com/auth/spreadsheets"] = Ok credentials →
            build "sheets" "v4" credentials = Ok service →
            values_append service sid
              (getenv_or "GOOGLE_SHEETS_LEADS_RANGE" "Leads!A:F")
              [[ Lead.name lead; Lead.email lead;
                 str_or (Lead.phone lead) ""; str_or (Lead.interest lead) "";
                 str_or (Lead.source lead) "website"; str_or (Lead.notes lead) "" ]]
            = Ok updated_range →
            append_lead_to_google_sheets lead = Ok (Some (py_str updated_range))))
  ∧ (∃ g, append_lead_to_google_sheets lead = Ok g
          ∧ ((∀ msg, head (faults w) ≠ Some (Some msg)) →
             (create_lead lead w).1
             = Ok {| status := "ok"; id := alloc w (issued w); google_range := g |}
             ∧ collection (create_lead lead w).2 "lead"
               = collection w "lead"
                 ++ [<["_id" := VOid (alloc w (issued w))]> (model_dump lead)])).
Proof.
  assert (Hdirect : ∀ cred info, json_loads cred = Ok info →
            load_service_account_info cred = Ok info).
  { intros cred info Hj. unfold load_service_account_info. by rewrite Hj. }
  assert (Hfallback : ∀ cred e, json_loads cred = Raise e →
            is_JSONDecodeError e = true →
            load_service_account_info cred
            = (decoded ← b64decode_utf8 cred; json_loads decoded)).
  { intros cred e Hj He. unfold load_service_account_info, try_except.
    by rewrite Hj, He. }
  assert (Hother : ∀ cred e, json_loads cred = Raise e →
            is_JSONDecodeError e = false →
            load_service_account_info cred = Raise e).
  { intros cred e Hj He. unfold load_service_account_info, try_except.
    by rewrite Hj, He. }
  split_and!; [exact Hdirect | exact Hfallback | | |].
  - intros e Hload.
    assert (Hnone : append_lead_to_google_sheets lead = Ok None).
    { unfold append_lead_to_google_sheets.
      destruct (_ || _); [done|]. destruct (negb google_installed); [done|].
      by rewrite Hload. }
    split; [done|]. intros Hw. by apply create_lead_stored.
  - intros sid cred Hsid Hsid' Hcred Hcred' Hinst.
    rewrite (append_lead_configured lead sid cred) by done.
    assert (Hloaded : ∀ info,
              json_loads cred = Ok info
              ∨ (∃ e decoded, json_loads cred = Raise e ∧ is_JSONDecodeError e = true
                              ∧ b64decode_utf8 cred = Ok decoded
                              ∧ json_loads decoded = Ok info) →
              load_service_account_info cred = Ok info).
    { intros info [Hj | (e & decoded & Hj & He & Hb & Hj')]; [by apply Hdirect|].
      by rewrite (Hfallback _ _ Hj He), Hb. }
    split_and!.
    + intros info Hj. by rewrite (Hloaded info) by eauto.
    + intros e decoded info Hj He Hb Hj'. by rewrite (Hloaded info) by eauto 10.
    + intros e Hj [He | [[e' Hb] | (decoded & e' & Hb & Hj')]].
      * by rewrite (Hother _ _ Hj He).
      * destruct (is_JSONDecodeError e) eqn:He;
          [by rewrite (Hfallback _ _ Hj He), Hb | by rewrite (Hother _ _ Hj He)].
      * destruct (is_JSONDecodeError e) eqn:He;
          [rewrite (Hfallback _ _ Hj He), Hb; cbn [mbind result_bind]; by rewrite Hj'
          | by rewrite (Hother _ _ Hj He)].
    + intros info credentials service updated_range Hinfo Hfrom Hbuild Happ.
      rewrite (Hloaded info Hinfo). unfold append_values.
      cbn [mbind result_bind]. rewrite Hfrom. cbn [mbind result_bind].
      rewrite Hbuild. cbn [mbind result_bind]. by rewrite Happ.
  - destruct (append_lead_to_google_sheets_total lead) as [g Hg].
    exists g. split; [done|]. intros Hw. by apply create_lead_stored.
Qed.
End lead_claims.

(** *** Diagnostics *)

Section diagnostics_claims.
Context {host : Host}.

(** C7. [test_database] always returns a report: with no handle, with a
    handle whose attribute read or collection listing raises, and with a
    working handle alike. Each failure is written into the [database] field,
    a missing connection string into [database_url], and the report lists
    at most 10 collection names. *)
Theorem test_database_always_reports :
  ∃ report, test_database = Ok report
    ∧ (List.length (collections report) ≤ 10)%nat
    ∧ backend report = "✅ Running"
    ∧ (db = None →
       database report = "⚠️ Available but not initialized"
       ∧ connection_status report = "Not Connected"
       ∧ collections report = [])
    ∧ (∀ h, db = Some h → env_truthy (getenv "DATABASE_URL") = false →
       database_url report = Some "❌ Not Set")
    ∧ (∀ h e, db = Some h → name_attr h = Raise e →
       database report = "❌ Error: " +:+ str_take 80 (exn_str e)
       ∧ collections report = [])
    ∧ (∀ h name e, db = Some h → name_attr h = Ok name →
       list_collection_names h = Raise e →
       database report = "⚠️ Connected but Error: " +:+ str_take 80 (exn_str e)
       ∧ connection_status report = "Connected"
       ∧ collections report = [])
    ∧ (∀ h name names, db = Some h → name_attr h = Ok name →
       list_collection_names h = Ok names →
       database report = "✅ Connected & Working"
       ∧ collections report = take 10 names).
Proof.
  unfold test_database, probe_database, try_exceptM.
  destruct db as [h|] eqn:Hdb.
  - unfold bind, lift, try_exceptM.
    destruct (name_attr h) as [name|e] eqn:Hname;
      [destruct (list_collection_names h) as [names|e] eqn:Hlist|];
      cbn -[str_take String.append take]; eexists; (split; [reflexivity|]);
      cbn -[str_take String.append take];
      split_and!; try done; intros; simplify_eq;
      try (split_and!; congruence);
      try (rewrite length_take; lia); try (simpl; lia);
      match goal with Hx : env_truthy _ = false |- _ => by rewrite Hx end.
  - cbn. eexists. split; [reflexivity|]. cbn. split_and!; try done; lia.
Qed.
End diagnostics_claims.

(** *** The handlers on concrete stores *)

Module Runs.
Import Examples.

(** No Stripe key: the mock URL for the stored order "oid0". *)
Lemma checkout_mock_for_P1 :
  ∃ oid d note_text,
    (checkout (cart [item "P1" 2]) (world_with [P1])).1
    = Ok {| checkout_url := "https://checkout.mock/" +:+ oid;
            order_id := oid; note := Some note_text |}
    ∧ collection (checkout (cart [item "P1" 2]) (world_with [P1])).2 "order"
      = collection (world_with [P1]) "order" ++ [d]
    ∧ d !! "_id" = Some (VOid oid)
    ∧ d !! "status" = Some (VStr "created").
Proof.
  apply (@checkout_falls_back_to_mock plain_builtins bare_host
           (cart [item "P1" 2]) (world_with [P1])).
  - vm_compute. discriminate.
  - left. vm_compute. reflexivity.
Defined.

(** With Stripe answering, the session URL is returned and the stored
    order still has no session id. *)
Lemma stripe_checkout_keeps_session_id_none :
  (stripe_checkout (cart [item "P1" 2]) (world_with [P1])).1
  = Ok {| checkout_url := "https://stripe.test/pay?back=https://example.com/success?order_id=oid0";
          order_id := "oid0"; note := None |}
  ∧ ∃ d, collection (stripe_checkout (cart [item "P1" 2]) (world_with [P1])).2 "order"
         = collection (world_with [P1]) "order" ++ [d]
       ∧ d !! "checkout_session_id" = Some VNone.
Proof.
  apply (proj1 (proj2 (@checkout_session_id_stays_none plain_builtins stripe_host
                         (cart [item "P1" 2]) (world_with [P1])))).
  - vm_compute. reflexivity.
  - vm_compute. reflexivity.
  - vm_compute. discriminate.
Defined.

(** The unpriced product "P0": priced at 0 by both loops. *)
Lemma unpriced_product_counts_as_zero :
  unit_price (builtins := plain_builtins) P0 = Ok 0
  ∧ price_items (builtins := plain_builtins) {[ "P0" := P0 ]} [item "P0" 3] 0 []
    = Ok (0, [ {| li_name := VStr "Sampler"; li_amount := 0;
                  li_currency := VStr "usd"; li_quantity := 3 |} ])
  ∧ stripe_items (builtins := plain_builtins) {[ "P0" := P0 ]} [item "P0" 3] []
    = Ok [ {| price_data_currency := VStr "usd";
              price_data_product_name := VStr "Sampler";
              price_data_unit_amount := 0; sli_quantity := 3 |} ].
Proof.
  apply (@falsy_price_counts_as_zero plain_builtins {[ "P0" := P0 ]}
           (item "P0" 3) [] P0 0 [] []).
  - vm_compute. reflexivity.
  - intros E. apply (f_equal (λ d : Doc, d !! "_id")) in E. vm_compute in E.
    discriminate E.
  - vm_compute. reflexivity.
Defined.

(** End to end, the order for three units of "P0" totals 0 cents. *)
Lemma unpriced_product_order_total :
  order_field "amount_total_cents" (checkout (cart [item "P0" 3]) (world_with [P0])).2
  = [Some (VInt 0)].
Proof. vm_compute. reflexivity. Qed.

(** An empty catalog: 404, and the catalog stays empty. *)
Lemma checkout_on_empty_catalog :
  (∃ detail, (checkout (cart [item "P1" 1]) (world_with [])).1
             = Raise (HTTPException 404 detail))
  ∧ collection (checkout (cart [item "P1" 1]) (world_with [])).2 "product" = [].
Proof.
  apply (proj1 (proj2 (@checkout_preserves_catalog plain_builtins bare_host
                         (cart [item "P1" 1]) (world_with [])))).
  - vm_compute. reflexivity.
  - discriminate.
  - intros msg. vm_compute. discriminate.
Defined.

(** The product listing, by contrast, seeds an empty catalog. *)
Lemma list_products_seeds_empty_catalog :
  titles (@list_products plain_builtins (world_with [])).2
  = [Some (VStr "Citrus Bloom"); Some (VStr "Amber Dusk"); Some (VStr "Verdant Mist")].
Proof. vm_compute. reflexivity. Qed.

(** Seeding a catalog that holds P1, twice, and seeding an unreachable
    store: nothing is inserted. *)
Lemma seeding_twice_keeps_P1 :
  (store (ensure_sample_products unreachable_world).2 = store unreachable_world
   ∧ (ensure_sample_products unreachable_world).1 = Ok tt)
  ∧ collection (ensure_sample_products (world_with [P1])).2 "product"
    = collection (world_with [P1]) "product"
  ∧ collection (ensure_sample_products
                  (ensure_sample_products (world_with [P1])).2).2 "product"
    = collection (world_with [P1]) "product".
Proof.
  split.
  - eapply (proj1 (ensure_sample_products_idempotent unreachable_world)).
    + vm_compute. reflexivity.
    + left. eexists. reflexivity.
  - apply (proj2 (ensure_sample_products_idempotent (world_with [P1]))).
    vm_compute. discriminate.
Defined.

(** Three credentials. One that parses directly is used as it is, although
    decoding it would succeed too; one that does not parse is used in its
    decoded form; one that neither parses nor decodes gives no range, and the
    lead is stored all the same. *)
Lemma create_lead_with_malformed_credential :
  (append_lead_to_google_sheets (builtins := plain_builtins)
     (host := tracing_host "{}") ada = Ok (Some "{}")
   ∧ append_lead_to_google_sheets (builtins := plain_builtins)
       (host := tracing_host "e30=") ada = Ok (Some "{e30=}"))
  ∧ append_lead_to_google_sheets (builtins := plain_builtins) (host := sheets_host) ada
    = Ok None
  ∧ ((∀ msg, head (faults (world_with [])) ≠ Some (Some msg)) →
     (create_lead (builtins := plain_builtins) (host := sheets_host) ada (world_with [])).1
     = Ok {| status := "ok"; id := "oid0"; google_range := None |}
     ∧ collection (create_lead (builtins := plain_builtins) (host := sheets_host) ada
                     (world_with [])).2 "lead"
       = collection (world_with []) "lead"
         ++ [<["_id" := VOid "oid0"]> (model_dump ada)]).
Proof.
  split; [split|].
  - refine (proj2 (proj2 (proj2
              (proj1 (proj2 (proj2 (proj2
                 (@sheets_credential_fallback plain_builtins (tracing_host "{}")
                    ada (world_with [])))))
                 "sheet-1" "{}" eq_refl _ eq_refl _ eq_refl)))
              "{}" "{}" "{}" (VStr "{}") (or_introl eq_refl) eq_refl eq_refl eq_refl);
      discriminate.
  - refine (proj2 (proj2 (proj2
              (proj1 (proj2 (proj2 (proj2
                 (@sheets_credential_fallback plain_builtins (tracing_host "e30=")
                    ada (world_with [])))))
                 "sheet-1" "e30=" eq_refl _ eq_refl _ eq_refl)))
              "{e30=}" "{e30=}" "{e30=}" (VStr "{e30=}")
              (or_intror (ex_intro _ (PyErr JSONDecodeError "Expecting value")
                 (ex_intro _ "{e30=}" (conj eq_refl (conj eq_refl (conj eq_refl eq_refl))))))
              eq_refl eq_refl eq_refl);
      discriminate.
  - apply (proj1 (proj2 (proj2 (@sheets_credential_fallback plain_builtins sheets_host
                                  ada (world_with []))))
             (PyErr ValueError "Incorrect padding")).
    vm_compute. reflexivity.
Defined.

(** A base64-encoded credential: the direct parse fails, the fallback
    loads it, and the appended range is reported. *)
Lemma create_lead_with_base64_credential :
  load_service_account_info (host := base64_host) "e30=" = Ok "{}"
  ∧ (create_lead (builtins := plain_builtins) (host := base64_host) ada (world_with [])).1
    = Ok {| status := "ok"; id := "oid0"; google_range := Some "Leads!A2:F2" |}.
Proof. split; vm_compute; reflexivity. Qed.

(** A working handle with three collections. *)
Lemma test_database_on_working_handle :
  ∃ report, test_database (host := sheets_host) = Ok report
    ∧ database report = "✅ Connected & Working"
    ∧ database_url report = Some "❌ Not Set"
    ∧ collections report = ["lead"; "order"; "product"].
Proof.
  destruct (@test_database_always_reports sheets_host)
    as (report & Hok & _ & _ & _ & Hurl & _ & _ & Hwork).
  exists report. split; [exact Hok|].
  destruct (Hwork _ _ _ eq_refl eq_refl eq_refl) as [Hdb Hcs].
  split; [exact Hdb|]. split; [|exact Hcs].
  apply (Hurl _ eq_refl). vm_compute. reflexivity.
Defined.
End Runs.


(** ** Further properties of the handlers *)

(** *** The product index *)

Section index_facts.
Context {builtins : Builtins}.

Lemma index_by_id_snoc (products : list Doc) p :
  index_by_id (products ++ [p]) = <[key_of p := p]> (index_by_id products).
Proof. unfold index_by_id, key_of. by rewrite foldl_app. Qed.

(** X2. An id resolves in the index built by [create_checkout_session] to
    the last catalog document filed under it (later documents replace earlier
    ones with the same id), and to nothing exactly when no document is. *)
Theorem index_by_id_lookup (products : list Doc) (k : string) :
  index_by_id products !! k = last (filter (λ p, key_of p = k) products)
  ∧ (index_by_id products !! k = None ↔ Forall (λ p, key_of p ≠ k) products).
Proof.
  assert (Hlast : index_by_id products !! k
                  = last (filter (λ p, key_of p = k) products)).
  { induction products as [|p products IH] using rev_ind; [done|].
    rewrite index_by_id_snoc, filter_app.
    destruct (decide (key_of p = k)) as [Hk|Hk].
    - rewrite Hk, lookup_insert_eq.
      rewrite (filter_cons_True _ p []) by done. by rewrite filter_nil, last_snoc.
    - rewrite lookup_insert_ne by done.
      rewrite (filter_cons_False _ p []) by done. by rewrite filter_nil, app_nil_r. }
  split; [exact Hlast|].
  rewrite Hlast, last_None. split.
  - intros Hnil. apply Forall_forall. intros p Hp Hk.
    exact (filter_nil_not_elem_of _ _ p Hnil Hk Hp).
  - intros Hall. clear Hlast. induction Hall as [|p l Hp _ IH]; [done|].
    rewrite filter_cons_False; [exact IH | exact Hp].
Qed.
End index_facts.

(** *** More on the checkout *)

Section checkout_more.
Context {builtins : Builtins} {host : Host}.

Lemma charged_app sl1 sl2 : charged (sl1 ++ sl2) = charged sl1 + charged sl2.
Proof.
  unfold charged. induction sl1 as [|l sl1 IH]; cbn [app foldr]; [lia|].
  rewrite IH. lia.
Qed.

Lemma billed_app li1 li2 : billed (li1 ++ li2) = billed li1 + billed li2.
Proof.
  unfold billed. induction li1 as [|l li1 IH]; cbn [app foldr]; [lia|].
  rewrite IH. lia.
Qed.

(** Once the catalog is read, a checkout is its pricing, the validation of
    the order, the write, and the choice of the response, in this order. *)
Lemma checkout_unfold payload w first rest :
  CheckoutRequest.items payload = first :: rest →
  (∀ msg, head (faults w) ≠ Some (Some msg)) →
  ∃ w1, store w1 = store w ∧ faults w1 = tail (faults w)
    ∧ issued w1 = issued w ∧ alloc w1 = alloc w
    ∧ create_checkout_session payload w
      = match price_items (index_by_id (collection w "product"))
                (CheckoutRequest.items payload) 0 [] with
        | Raise e => (Raise e, w1)
        | Ok priced =>
            match order_of payload first priced.1 with
            | Raise e => (Raise e, w1)
            | Ok order =>
                match create_document "order" order w1 with
                | (Raise e, w2) => (Raise e, w2)
                | (Ok oid, w2) =>
                    (Ok (checkout_response (index_by_id (collection w "product"))
                           payload oid), w2)
                end
            end
        end.
Proof.
  intros Hitems Hr.
  destruct (get_documents_ok "product" None w Hr) as (w1 & Hread & Hs & Hf & Hi & Ha).
  exists w1. split_and!; try done.
  unfold create_checkout_session, order_of, checkout_response. rewrite Hitems.
  unfold bind at 1. rewrite Hread. cbn [from_option].
  unfold bind at 1, lift at 1.
  destruct (price_items _ (first :: rest) 0 []) as [priced|e]; [|done].
  unfold bind at 1, lift at 1.
  destruct (OrderSchema _ _ _ _ _) as [order|e]; [|done].
  unfold bind at 1.
  destruct (create_document "order" order w1) as [[oid|e] w2]; [|done].
  by destruct (env_truthy _); [destruct (stripe_session _ _ _ _)|].
Qed.

(** The pricing loop and the Stripe loop walk the cart alike: when the
    first returns, the second returns too, with one entry per line item and
    the same sum. *)
Lemma loops_agree by_id items a0 li0 a li sl0 :
  price_items by_id items a0 li0 = Ok (a, li) →
  ∃ sl li', stripe_items by_id items sl0 = Ok (sl0 ++ sl)
    ∧ li = li0 ++ li'
    ∧ List.length sl = List.length items
    ∧ List.length li' = List.length items
    ∧ a = a0 + charged sl
    ∧ billed li' = charged sl.
Proof.
  revert a0 li0 sl0. induction items as [|it items IH]; intros a0 li0 sl0 Hp.
  - injection Hp as <- <-. exists [], []. rewrite !app_nil_r. cbn. split_and!; try done; lia.
  - cbn [price_items] in Hp.
    destruct (not_prod (by_id !! CheckoutItem.product_id it)) eqn:Hn; [done|].
    destruct (not_prod_false_inv _ Hn) as (prod & Hprod & _).
    rewrite Hprod in Hp. change (default ∅ (Some prod)) with prod in Hp.
    destruct (unit_price prod) as [p|e] eqn:Hu; [|simpl in Hp; discriminate].
    change (price_items by_id items
              (a0 + p * Z.max 1 (CheckoutItem.quantity it))
              (li0 ++ [ {| li_name := dict_get prod "title";
                           li_amount := p;
                           li_currency := dict_get_or prod "currency" (VStr "usd");
                           li_quantity := Z.max 1 (CheckoutItem.quantity it) |} ])
            = Ok (a, li)) in Hp.
    destruct (IH _ _ (sl0 ++ [ {| price_data_currency := dict_get_or prod "currency" (VStr "usd");
                                  price_data_product_name := dict_get prod "title";
                                  price_data_unit_amount := p;
                                  sli_quantity := Z.max 1 (CheckoutItem.quantity it) |} ]) Hp)
      as (sl & li' & Hs & -> & Hlen & Hlen' & -> & Hb).
    eexists (_ :: sl), (_ :: li').
    cbn [stripe_items]. rewrite Hprod, Hu. cbn [mbind result_bind].
    rewrite Hs, <- !app_assoc. cbn [app List.length].
    split_and!; try done; try lia.
    + cbn. unfold charged. lia.
    + cbn. unfold billed, charged in *. lia.
Qed.

(** X3. Whenever a checkout stores an order, the Stripe line items built
    for the same cart have one entry per cart line and add up, unit amount
    times quantity, to the stored [amount_total_cents]. *)
Theorem stripe_charge_matches_order payload w :
  collection (create_checkout_session payload w).2 "order" = collection w "order"
  ∨ ∃ d a sl,
      collection (create_checkout_session payload w).2 "order"
      = collection w "order" ++ [d]
      ∧ d !! "amount_total_cents" = Some (VInt a)
      ∧ stripe_items (index_by_id (collection w "product"))
          (CheckoutRequest.items payload) [] = Ok sl
      ∧ List.length sl = List.length (CheckoutRequest.items payload)
      ∧ charged sl = a.
Proof.
  destruct (checkout_run payload w)
    as [[Hs _] | (f & r & [a li] & o & _ & _ & Hp & Ho & _ & Hs & _)].
  - left. by apply collection_same.
  - right.
    destruct (loops_agree _ _ _ _ _ _ [] Hp) as (sl & li' & Hsl & _ & Hlen & _ & Ha & _).
    apply (order_document _ _ _ _ (alloc w (issued w))) in Ho as (_&_&_&_&Hamt&_).
    eexists _, a, sl.
    split_and!; first [done | by eapply collection_insert_eq | lia].
Qed.

(** The Stripe block returns only for an installed library and a session
    request that succeeded, and then with the order id it was given. *)
Lemma stripe_session_inv key by_id payload oid response :
  stripe_session key by_id payload oid = Ok response →
  stripe_installed = true
  ∧ ∃ sl url,
      stripe_items by_id (CheckoutRequest.items payload) [] = Ok sl
      ∧ Session_create (session_request key sl payload oid) = Ok url
      ∧ response = {| checkout_url := url; order_id := oid; note := None |}.
Proof.
  unfold stripe_session, session_request.
  destruct stripe_installed; [|done]. cbn [negb].
  destruct (stripe_items _ _ _) as [sl|e]; [|done]. cbn [mbind result_bind].
  destruct (Session_create _) as [url|e] eqn:Hc; [|done]. cbn [mbind result_bind mret result_ret].
  intros [= <-]. eauto 10.
Qed.

Lemma checkout_response_order_id by_id payload oid :
  order_id (checkout_response by_id payload oid) = oid.
Proof.
  unfold checkout_response. destruct (env_truthy _); [|done].
  destruct (stripe_session _ _ _ _) as [r|e] eqn:Hs; [|done].
  by apply stripe_session_inv in Hs as (_ & sl & url & _ & _ & ->).
Qed.

(** X4. A checkout is all or nothing: a run that raises leaves every
    collection as it was; a run that returns has appended exactly one order
    document and changed nothing else, and the [order_id] of the response is
    the identifier of that document. *)
Theorem checkout_all_or_nothing payload w :
  (∀ e, (create_checkout_session payload w).1 = Raise e →
     store (create_checkout_session payload w).2 = store w)
  ∧ (∀ response, (create_checkout_session payload w).1 = Ok response →
       ∃ d, store (create_checkout_session payload w).2
            = <["order" := collection w "order" ++ [d]]> (store w)
          ∧ d !! "_id" = Some (VOid (order_id response))).
Proof.
  destruct (checkout_run payload w)
    as [[Hs [e He]] | (f & r & pr & o & _ & _ & _ & Ho & _ & Hs & Hres)].
  - split; [done|]. intros response Hok. congruence.
  - split; [intros e He; congruence|].
    intros response Hok. rewrite Hres in Hok. injection Hok as <-.
    rewrite checkout_response_order_id.
    eexists. split; [exact Hs|].
    by apply (order_document _ _ _ _ (alloc w (issued w))) in Ho as (?&_).
Qed.

(** X5. Every response of a checkout is of one of two shapes: the mock
    response for the stored order, returned when no Stripe key is set or the
    Stripe block raised; or the URL Stripe returned for a "payment" session
    whose success and cancel URLs end in "?order_id=" and the id of the stored
    order, with that id as [order_id] and no note. *)
Theorem checkout_response_shapes payload w response :
  (create_checkout_session payload w).1 = Ok response →
  (response = mock_checkout (alloc w (issued w))
   ∧ (env_truthy (getenv "STRIPE_SECRET_KEY") = false
      ∨ ∃ e, stripe_session (default "" (getenv "STRIPE_SECRET_KEY"))
               (index_by_id (collection w "product")) payload (alloc w (issued w))
             = Raise e))
  ∨ (env_truthy (getenv "STRIPE_SECRET_KEY") = true
     ∧ stripe_installed = true
     ∧ ∃ sl, stripe_items (index_by_id (collection w "product"))
               (CheckoutRequest.items payload) [] = Ok sl
           ∧ Session_create
               (session_request (default "" (getenv "STRIPE_SECRET_KEY")) sl payload
                  (alloc w (issued w)))
             = Ok (checkout_url response)
           ∧ order_id response = alloc w (issued w)
           ∧ note response = None).
Proof.
  intros Hok.
  destruct (checkout_run payload w)
    as [[_ [e He]] | (f & r & pr & o & _ & _ & _ & _ & _ & _ & Hres)]; [congruence|].
  rewrite Hres in Hok. injection Hok as <-. unfold checkout_response.
  destruct (env_truthy _) eqn:Hkey; [|left; eauto].
  destruct (stripe_session _ _ _ _) as [r'|e] eqn:Hs; [|left; eauto].
  right. apply stripe_session_inv in Hs as (Hinst & sl & url & Hsl & Hc & ->).
  split_and!; try done. exists sl. by split_and!.
Qed.

(** X6. Store failures of a checkout reach the caller as they are and
    leave no order behind: a failing catalog read ends the request with that
    store error, and so does a failing write of the validated order. *)
Theorem checkout_store_failure payload w msg :
  (∀ fs, CheckoutRequest.items payload ≠ [] → faults w = Some msg :: fs →
     (create_checkout_session payload w).1 = Raise (PyErr StoreError msg)
     ∧ store (create_checkout_session payload w).2 = store w)
  ∧ (∀ fs first rest priced order,
       CheckoutRequest.items payload = first :: rest →
       faults w = None :: Some msg :: fs →
       price_items (index_by_id (collection w "product"))
         (CheckoutRequest.items payload) 0 [] = Ok priced →
       order_of payload first priced.1 = Ok order →
       (create_checkout_session payload w).1 = Raise (PyErr StoreError msg)
       ∧ store (create_checkout_session payload w).2 = store w).
Proof.
  split.
  - intros fs Hne Hf.
    assert (∃ w', create_checkout_session payload w
                  = (Raise (PyErr StoreError msg), w') ∧ store w' = store w)
      as (w' & -> & Hs); [|done].
    unfold create_checkout_session.
    destruct (CheckoutRequest.items payload) as [|first rest]; [done|].
    unfold bind at 1, get_documents. rewrite Hf.
    eexists. split; [reflexivity | done].
  - intros fs first rest priced order Hitems Hf Hp Ho.
    destruct (checkout_unfold payload w first rest Hitems) as (w1 & Hs & Hf1 & _ & _ & ->).
    { rewrite Hf. by intros m [=]. }
    rewrite Hp, Ho. unfold create_document. rewrite Hf1, Hf. done.
Qed.

(** X7. A priced cart whose requested quantities sum to less than 1, or
    whose total is negative, is rejected after pricing by the Order schema:
    the request ends in a validation error and nothing is stored. *)
Theorem checkout_validation_error payload w first rest priced :
  CheckoutRequest.items payload = first :: rest →
  (∀ msg, head (faults w) ≠ Some (Some msg)) →
  price_items (index_by_id (collection w "product"))
    (CheckoutRequest.items payload) 0 [] = Ok priced →
  py_sum (CheckoutItem.quantity <$> CheckoutRequest.items payload) < 1 ∨ priced.1 < 0 →
  (create_checkout_session payload w).1
  = Raise (PyErr ValidationError "validation error for Order")
  ∧ store (create_checkout_session payload w).2 = store w.
Proof.
  intros Hitems Hr Hp Hbad.
  destruct (checkout_unfold payload w first rest Hitems Hr) as (w1 & Hs & _ & _ & _ & ->).
  rewrite Hp. unfold order_of, OrderSchema.
  rewrite decide_False by lia. done.
Qed.

Lemma order_document_bounds payload first a order oid :
  order_of payload first a = Ok order →
  (<["_id" := VOid oid]> (model_dump order) : Doc) !! "currency" = Some (VStr "usd")
  ∧ 1 ≤ py_sum (CheckoutItem.quantity <$> CheckoutRequest.items payload)
  ∧ 0 ≤ a.
Proof.
  unfold order_of, OrderSchema. case_decide as Hb; [|done]. intros [= <-].
  split; [|done]. unfold model_dump, Order_model. cbn [Order.currency].
  by simplify_map_eq.
Qed.

(** X8. Every order a checkout stores is within the bounds of the Order
    schema: its quantity is an integer of at least 1, its
    [amount_total_cents] an integer of at least 0, and its currency "usd"
    whatever the currencies of the products. *)
Theorem checkout_order_within_bounds payload w :
  collection (create_checkout_session payload w).2 "order" = collection w "order"
  ∨ ∃ d q a,
      collection (create_checkout_session payload w).2 "order"
      = collection w "order" ++ [d]
      ∧ d !! "quantity" = Some (VInt q) ∧ 1 ≤ q
      ∧ d !! "amount_total_cents" = Some (VInt a) ∧ 0 ≤ a
      ∧ d !! "currency" = Some (VStr "usd").
Proof.
  destruct (checkout_run payload w)
    as [[Hs _] | (f & r & pr & o & _ & _ & _ & Ho & _ & Hs & _)].
  - left. by apply collection_same.
  - right.
    destruct (order_document_bounds _ _ _ _ (alloc w (issued w)) Ho) as (Hcur & Hq & Ha).
    apply (order_document _ _ _ _ (alloc w (issued w))) in Ho as (_&_&_&Hqty&Hamt&_).
    eexists _, _, _. split_and!; try done. by eapply collection_insert_eq.
Qed.
End checkout_more.

(** *** More on the seeder and the product listing *)

Section seeder_more.

Lemma samples_ok : samples = Ok sample_products.
Proof. reflexivity. Qed.

Lemma calls_succeed_S n w :
  calls_succeed (S n) w →
  (∀ msg, head (faults w) ≠ Some (Some msg))
  ∧ ∀ w1, faults w1 = tail (faults w) → calls_succeed n w1.
Proof.
  unfold calls_succeed. destruct (faults w) as [|f fs]; simpl.
  - intros _. split; [done|]. intros w1 ->. by rewrite take_nil.
  - intros [-> Hfs]%Forall_cons. split; [done|]. by intros w1 ->.
Qed.

(** One turn of the seeding loop: it never raises, and it either appends the
    sample under a fresh identifier or, when the store fails, appends
    nothing. *)
Lemma seed_one_run s w :
  ∃ w1, seed_one s w = (Ok tt, w1)
    ∧ faults w1 = tail (faults w) ∧ alloc w1 = alloc w
    ∧ (((∃ msg, head (faults w) = Some (Some msg))
        ∧ store w1 = store w ∧ issued w1 = issued w)
       ∨ ((∀ msg, head (faults w) ≠ Some (Some msg))
          ∧ issued w1 = S (issued w)
          ∧ store w1 = <["product" := collection w "product"
                           ++ [<["_id" := VOid (alloc w (issued w))]> (model_dump s)]]>
                         (store w))).
Proof.
  unfold seed_one, try_exceptM, bind, create_document.
  destruct (faults w) as [|[msg|] fs] eqn:Hf; simpl; eexists;
    (split; [reflexivity|]); simpl; split_and!; try done.
  - right. by split_and!.
  - left. split_and!; eauto.
  - right. by split_and!.
Qed.

Lemma sample_document_title s oid :
  (<["_id" := VOid oid]> (model_dump s) : Doc) !! "title"
  = Some (VStr (Product.title s)).
Proof. unfold model_dump, Product_model. by simplify_map_eq. Qed.

(** The loop over the samples: the documents it appends are, in order,
    those of the samples whose write succeeded. *)
Lemma seed_loop_run l w :
  ∃ w1 docs, for_each l seed_one w = (Ok tt, w1)
    ∧ collection w1 "product" = collection w "product" ++ docs
    ∧ (∀ name, name ≠ "product" → collection w1 name = collection w name)
    ∧ ((λ d : Doc, d !! "title") <$> docs)
      `sublist_of` ((λ s, Some (VStr (Product.title s))) <$> l)
    ∧ (calls_succeed (List.length l) w →
       docs = imap (λ i s, <["_id" := VOid (alloc w (issued w + i)%nat)]> (model_dump s)) l).
Proof.
  revert w. induction l as [|s l IH]; intros w.
  - exists w, []. rewrite app_nil_r. by split_and!.
  - destruct (seed_one_run s w) as (w1 & Hrun & Hf & Ha & Hcase).
    destruct (IH w1) as (w2 & docs & Hloop & Hdocs & Hfr & Hsub & Hall).
    cbn [for_each]. unfold bind. rewrite Hrun, Hloop.
    destruct Hcase as [(Hfail & Hs & Hi) | (Hok & Hi & Hs)].
    + exists w2, docs. split_and!; try done.
      * by rewrite Hdocs, (collection_same w1 w).
      * intros name Hne. by rewrite Hfr, (collection_same w1 w).
      * by apply sublist_cons.
      * intros [Hhead _]%calls_succeed_S. destruct Hfail as [msg Hmsg].
        by destruct (Hhead msg).
    + exists w2, (<["_id" := VOid (alloc w (issued w))]> (model_dump s) :: docs).
      split_and!; try done.
      * rewrite Hdocs, (collection_insert_eq _ _ _ _ Hs). by rewrite <- app_assoc.
      * intros name Hne. rewrite Hfr by done.
        eapply collection_insert_ne; [exact Hs | congruence].
      * cbn [fmap list_fmap]. rewrite sample_document_title. by apply sublist_skip.
      * intros [_ Hrest]%calls_succeed_S. rewrite (Hall (Hrest w1 Hf)).
        rewrite imap_cons, Nat.add_0_r. f_equal.
        apply imap_ext. intros i x _. cbn. rewrite Ha, Hi. do 3 f_equal. lia.
Qed.

(** The existence check, read off the store. *)
Lemma seeding_not_needed_run w :
  ∃ w1, store w1 = store w ∧ faults w1 = tail (faults w)
    ∧ issued w1 = issued w ∧ alloc w1 = alloc w
    ∧ ((seeding_not_needed w = (Ok true, w1)
        ∧ ((∃ msg, head (faults w) = Some (Some msg)) ∨ collection w "product" ≠ []))
       ∨ (seeding_not_needed w = (Ok false, w1)
          ∧ (∀ msg, head (faults w) ≠ Some (Some msg))
          ∧ collection w "product" = [])).
Proof.
  exists {| store := store w; faults := tail (faults w);
            issued := issued w; alloc := alloc w |}.
  cbn [store faults issued alloc]. split_and!; try done.
  unfold seeding_not_needed, try_exceptM, bind, get_documents, collection.
  destruct (faults w) as [|[msg|] fs] eqn:Hf; cbn [tail head from_option].
  - destruct (default [] (store w !! "product")) as [|d ds]; simpl;
      [right | left]; split_and!; eauto; done.
  - left. eauto.
  - destruct (default [] (store w !! "product")) as [|d ds]; simpl;
      [right | left]; split_and!; eauto; done.
Qed.

(** A run of the seeder, read off the store. *)
Lemma ensure_sample_products_run w :
  ∃ w' docs, ensure_sample_products w = (Ok tt, w')
    ∧ collection w' "product" = collection w "product" ++ docs
    ∧ (∀ name, name ≠ "product" → collection w' name = collection w name)
    ∧ ((λ d : Doc, d !! "title") <$> docs) `sublist_of` sample_titles
    ∧ (collection w "product" ≠ [] → docs = [])
    ∧ (collection w "product" = [] → calls_succeed 4 w →
       docs = imap (λ i s, <["_id" := VOid (alloc w (issued w + i)%nat)]> (model_dump s))
                sample_products).
Proof.
  destruct (seeding_not_needed_run w)
    as (w1 & Hs & Hf & Hi & Ha & [[Hrun Hwhy] | (Hrun & Hok & Hempty)]).
  - exists w1, []. unfold ensure_sample_products, bind. rewrite Hrun, app_nil_r.
    split_and!; try done.
    + by apply collection_same.
    + intros. by apply collection_same.
    + apply sublist_nil_l.
    + intros Hempty [Hhead _]%calls_succeed_S.
      destruct Hwhy as [[msg Hmsg] | Hne]; [by destruct (Hhead msg) | done].
  - destruct (seed_loop_run sample_products w1) as (w2 & docs & Hloop & Hdocs & Hfr & Hsub & Hall).
    exists w2, docs. unfold ensure_sample_products. unfold bind at 1. rewrite Hrun.
    unfold bind, lift. rewrite samples_ok, Hloop.
    split_and!; try done.
    + by rewrite Hdocs, (collection_same w1 w).
    + intros name Hne. by rewrite Hfr, (collection_same w1 w).
    + intros _ [_ Hrest]%calls_succeed_S.
      rewrite (Hall (Hrest w1 Hf)). by rewrite Hi, Ha.
Qed.

(** X9. The seeder never raises, whatever the store does; it writes to the
    product collection only, and only by appending to it. *)
Theorem ensure_sample_products_never_raises w :
  (ensure_sample_products w).1 = Ok tt
  ∧ (∀ name, name ≠ "product" →
       collection (ensure_sample_products w).2 name = collection w name)
  ∧ collection w "product" `prefix_of` collection (ensure_sample_products w).2 "product".
Proof.
  destruct (ensure_sample_products_run w) as (w' & docs & -> & Hdocs & Hfr & _).
  split_and!; [done|exact Hfr|]. cbn [snd]. rewrite Hdocs. by exists docs.
Qed.

(** X10. On an empty product collection, when the next four store calls
    succeed, the seeder stores exactly the three samples, in the order Citrus
    Bloom (5900), Amber Dusk (7200), Verdant Mist (6400), under the next three
    identifiers of the store. *)
Theorem ensure_sample_products_seeds w :
  collection w "product" = [] →
  calls_succeed 4 w →
  product_summary <$> collection (ensure_sample_products w).2 "product"
  = [ (Some (VOid (alloc w (issued w))), Some (VStr "Citrus Bloom"), Some (VInt 5900));
      (Some (VOid (alloc w (issued w + 1)%nat)), Some (VStr "Amber Dusk"), Some (VInt 7200));
      (Some (VOid (alloc w (issued w + 2)%nat)), Some (VStr "Verdant Mist"), Some (VInt 6400)) ].
Proof.
  intros Hempty Hcalls.
  destruct (ensure_sample_products_run w) as (w' & docs & -> & Hdocs & _ & _ & _ & Hall).
  cbn [snd]. rewrite Hdocs, Hempty, (Hall Hempty Hcalls). cbn [app].
  let l := eval vm_compute in sample_products in change sample_products with l.
  cbn [imap compose fmap list_fmap]. rewrite Nat.add_0_r.
  vm_compute. reflexivity.
Qed.


End seeder_more.

(** *** More on the product listing, the lead intake and the diagnostics *)

Section routes_more.
Context {builtins : Builtins} {host : Host}.

Lemma rename_id_no_id (p : Doc) : rename_id p !! "_id" = None.
Proof.
  unfold rename_id. destruct (p !! "_id") as [v|] eqn:Hid; [|done].
  rewrite lookup_insert_ne by done. apply lookup_delete_eq.
Qed.

Lemma rename_id_id (p : Doc) v :
  p !! "_id" = Some v → rename_id p !! "id" = Some (VStr (py_str v)).
Proof. unfold rename_id. intros ->. apply lookup_insert_eq. Qed.

Lemma rename_id_other (p : Doc) k :
  k ≠ "_id" → k ≠ "id" → rename_id p !! k = p !! k.
Proof.
  intros H1 H2. unfold rename_id. destruct (p !! "_id") as [v|]; [|done].
  rewrite lookup_insert_ne by done. by rewrite lookup_delete_ne.
Qed.

(** X12. When [list_products] returns, its list is the stored product
    collection (after seeding) with every document's "_id" replaced by "id",
    the string of that identifier: no returned document has an "_id", every
    other field is as stored, and the stored documents keep their "_id". The
    only exception it can raise is the store error of its final read. *)
Theorem list_products_response w :
  (∀ docs, (list_products w).1 = Ok docs →
     docs = rename_id <$> collection (list_products w).2 "product"
     ∧ Forall (λ d : Doc, d !! "_id" = None) docs)
  ∧ (∀ p : Doc,
       (∀ v, p !! "_id" = Some v → rename_id p !! "id" = Some (VStr (py_str v)))
       ∧ (∀ k, k ≠ "_id" → k ≠ "id" → rename_id p !! k = p !! k))
  ∧ (∀ e, (list_products w).1 = Raise e → ∃ msg, e = PyErr StoreError msg).
Proof.
  assert (Hrun : ∃ w1, list_products w
                       = (let r := get_documents "product" None w1 in
                          match r.1 with
                          | Ok prods => (Ok (rename_id <$> prods), r.2)
                          | Raise e => (Raise e, r.2)
                          end)).
  { destruct (ensure_sample_products_run w) as (w1 & docs & Hens & _).
    exists w1. unfold list_products. unfold bind at 1. rewrite Hens.
    unfold bind, ret. by destruct (get_documents "product" None w1) as [[prods|e] w2]. }
  destruct Hrun as [w1 ->]. cbn zeta.
  destruct (get_documents "product" None w1) as [r w2] eqn:Hg. cbn [fst snd].
  apply get_documents_cases in Hg as (Hs & _ & _ & _ & [[msg ->] | ->]).
  - split_and!; [done| |intros e [= <-]; eauto].
    intros p. split; [apply rename_id_id | apply rename_id_other].
  - cbn [from_option fst snd]. split_and!; [|
      intros p; split; [apply rename_id_id | apply rename_id_other] | done].
    intros docs [= <-]. split; [by rewrite (collection_same w2 w1)|].
    apply Forall_fmap, Forall_forall. intros p _. apply rename_id_no_id.
Qed.

(** X13. The two outcomes of [create_lead]. When the store fails, the
    request ends in HTTP 500 with detail "Database error: " and the store's
    message, no lead is stored, and the spreadsheet is not consulted. When the
    store answers, exactly one document is appended to the lead collection,
    holding the lead's name, e-mail and source under the returned id, and the
    answer is "ok" with that id and whatever the spreadsheet adapter
    returned. *)
Theorem create_lead_outcomes lead w :
  (∀ msg fs, faults w = Some msg :: fs →
     (create_lead lead w).1
     = Raise (HTTPException 500 ("Database error: " +:+ msg))
     ∧ store (create_lead lead w).2 = store w)
  ∧ ((∀ msg, head (faults w) ≠ Some (Some msg)) →
     ∃ g d,
       append_lead_to_google_sheets lead = Ok g
       ∧ (create_lead lead w).1
         = Ok {| status := "ok"; id := alloc w (issued w); google_range := g |}
       ∧ store (create_lead lead w).2
         = <["lead" := collection w "lead" ++ [d]]> (store w)
       ∧ d !! "_id" = Some (VOid (alloc w (issued w)))
       ∧ d !! "name" = Some (VStr (Lead.name lead))
       ∧ d !! "email" = Some (VStr (Lead.email lead))
       ∧ d !! "source" = Some (opt_str (Lead.source lead))).
Proof.
  split.
  - intros msg fs Hf.
    assert (∃ w', create_lead lead w
                  = (Raise (HTTPException 500 ("Database error: " +:+ msg)), w')
                  ∧ store w' = store w) as (w' & -> & Hs); [|done].
    unfold create_lead, LeadSchema. unfold bind at 1, lift at 1.
    unfold bind at 1, try_exceptM, create_document. rewrite Hf.
    eexists. split; [reflexivity | done].
  - intros Hok.
    destruct (append_lead_to_google_sheets_total lead) as [g Hg].
    destruct (create_document_ok "lead" lead w Hok) as (w1 & Hc & Hs & _).
    assert (create_lead lead w
            = (Ok {| status := "ok"; id := alloc w (issued w); google_range := g |}, w1))
      as ->.
    { unfold create_lead, LeadSchema. unfold bind at 1, lift at 1.
      unfold bind at 1, try_exceptM. rewrite Hc.
      unfold bind, lift. by rewrite Hg. }
    exists g. eexists. split_and!; [done|done|exact Hs|..];
      unfold model_dump, Lead_model; by simplify_map_eq.
Qed.

Lemma env_truthy_Some (o : option string) :
  env_truthy o = true ↔ ∃ s, o = Some s ∧ s ≠ "".
Proof.
  destruct o as [s|]; simpl.
  - rewrite negb_true_iff, String.eqb_neq. split.
    + intros Hs. by exists s.
    + by intros (s' & [= <-] & Hs).
  - split; [done|]. by intros (s & [=] & _).
Qed.

(** X14. The spreadsheet adapter reports a range exactly when both the
    spreadsheet id and the credential are set and non-empty, the Google
    libraries are installed, the credential loads, and the append request for
    the lead's row of six cells (absent phone, interest and notes as empty
    strings, an absent or empty source as "website") to the configured range,
    by default "Leads!A:F", succeeds; the range reported is the string of the
    response's [updatedRange], so a response without one is reported as the
    string "None". *)
Theorem append_lead_reports_range lead r :
  append_lead_to_google_sheets lead = Ok (Some r)
  ↔ ∃ sid cred info credentials service updated_range,
      getenv "GOOGLE_SHEETS_SPREADSHEET_ID" = Some sid ∧ sid ≠ ""
      ∧ getenv "GOOGLE_SHEETS_SERVICE_ACCOUNT_JSON" = Some cred ∧ cred ≠ ""
      ∧ google_installed = true
      ∧ load_service_account_info cred = Ok info
      ∧ from_service_account_info info ["https://www.googleapis.com/auth/spreadsheets"]
        = Ok credentials
      ∧ build "sheets" "v4" credentials = Ok service
      ∧ values_append service sid
          (getenv_or "GOOGLE_SHEETS_LEADS_RANGE" "Leads!A:F") (lead_row lead)
        = Ok updated_range
      ∧ r = py_str updated_range.
Proof.
  unfold append_lead_to_google_sheets, append_values, lead_row. split.
  - destruct (env_truthy (getenv "GOOGLE_SHEETS_SPREADSHEET_ID")) eqn:Hsid; [|done].
    destruct (env_truthy (getenv "GOOGLE_SHEETS_SERVICE_ACCOUNT_JSON")) eqn:Hcred; [|done].
    apply env_truthy_Some in Hsid as (sid & Hsid & Hsid').
    apply env_truthy_Some in Hcred as (cred & Hcred & Hcred').
    rewrite Hsid, Hcred. cbn [negb orb default from_option]. unfold Datatypes.id.
    destruct google_installed; [|done]. cbn [negb].
    destruct (load_service_account_info cred) as [info|e] eqn:Hload; [|by simpl].
    cbn [mbind result_bind].
    destruct (from_service_account_info info _) as [c|e] eqn:Hfrom; [|by simpl].
    cbn [mbind result_bind].
    destruct (build "sheets" "v4" c) as [svc|e] eqn:Hbuild; [|by simpl].
    cbn [mbind result_bind].
    destruct (values_append svc sid _ _) as [v|e] eqn:Happ; [|by simpl].
    cbn [mbind result_bind mret result_ret try_except].
    intros [= <-]. exists sid, cred, info, c, svc, v. by split_and!.
  - intros (sid & cred & info & c & svc & v & Hsid & Hsid' & Hcred & Hcred'
            & Hinst & Hload & Hfrom & Hbuild & Happ & ->).
    assert (env_truthy (getenv "GOOGLE_SHEETS_SPREADSHEET_ID") = true) as ->
      by (apply env_truthy_Some; eauto).
    assert (env_truthy (getenv "GOOGLE_SHEETS_SERVICE_ACCOUNT_JSON") = true) as ->
      by (apply env_truthy_Some; eauto).
    rewrite Hsid, Hcred, Hinst. cbn [negb orb default from_option]. unfold Datatypes.id.
    rewrite Hload. cbn [mbind result_bind]. rewrite Hfrom. cbn [mbind result_bind].
    rewrite Hbuild. cbn [mbind result_bind]. rewrite Happ. done.
Qed.
End routes_more.

Section diagnostics_more.
Context {host : Host}.

(** X15. With a handle present, [test_database] keeps in its report what
    it had written before a failure: when reading the handle's name raises,
    the report still says whether DATABASE_URL is set, while the name stays
    unset, the connection status stays "Not Connected" and no collection is
    listed. When the name is read, the reported name is never empty: "Unknown"
    stands in for an absent or empty name. *)
Theorem test_database_partial_report h :
  db = Some h →
  (∀ e, name_attr h = Raise e →
     test_database
     = Ok {| backend := "✅ Running";
             database := "❌ Error: " +:+ str_take 80 (exn_str e);
             database_url := Some (if env_truthy (getenv "DATABASE_URL")
                                   then "✅ Set" else "❌ Not Set");
             database_name := None;
             connection_status := "Not Connected";
             collections := [] |})
  ∧ (∀ name, name_attr h = Ok name →
       ∃ report n, test_database = Ok report
         ∧ database_name report = Some n ∧ n ≠ ""
         ∧ (∀ s, name = Some s → s ≠ "" → n = s)
         ∧ (name = None ∨ name = Some "" → n = "Unknown")
         ∧ connection_status report = "Connected").
Proof.
  intros Hdb. unfold test_database, probe_database, try_exceptM. rewrite Hdb.
  unfold bind, lift, try_exceptM. split.
  - intros e ->. reflexivity.
  - intros name ->.
    destruct (list_collection_names h) as [names|e];
      cbn -[str_take String.append take]; eexists _, (str_or name "Unknown");
      (split; [reflexivity|]); cbn -[str_take String.append take];
      (split_and!; [done| | | |done]).
    all: try (destruct name as [[|c s']|]; simpl; done).
    all: try (intros s -> Hs; destruct s; [done|reflexivity]).
    all: intros [-> | ->]; reflexivity.
Qed.
End diagnostics_more.


(** *** The further properties on concrete stores *)

Module MoreRuns.
Import Examples.

(** With Stripe answering, the response is of the second shape. *)
Lemma stripe_response_shape :
  env_truthy (getenv (host := stripe_host) "STRIPE_SECRET_KEY") = true
  ∧ ∃ sl, @Session_create stripe_host
            (session_request (host := stripe_host) "sk_test_1" sl
               (cart [item "P1" 2]) "oid0")
          = Ok "https://stripe.test/pay?back=https://example.com/success?order_id=oid0"
        ∧ charged sl = 11800.
Proof.
  destruct (@checkout_response_shapes plain_builtins stripe_host
              (cart [item "P1" 2]) (world_with [P1])
              {| checkout_url := "https://stripe.test/pay?back=https://example.com/success?order_id=oid0";
                 order_id := "oid0"; note := None |})
    as [[Hmock _] | (Hkey & _ & sl & Hsl & Hc & _)].
  - vm_compute. reflexivity.
  - discriminate Hmock.
  - split; [exact Hkey|]. exists sl. split; [exact Hc|].
    vm_compute in Hsl. injection Hsl as <-. vm_compute. reflexivity.
Defined.

(** An unreachable store, and a store that fails on the write of the
    order: the store error reaches the caller and nothing is stored. *)
Lemma checkout_with_failing_store :
  ((checkout (cart [item "P1" 1]) unreachable_world).1
   = Raise (PyErr StoreError "connection refused")
   ∧ store (checkout (cart [item "P1" 1]) unreachable_world).2 = store unreachable_world)
  ∧ ((checkout (cart [item "P1" 1]) failing_write_world).1
     = Raise (PyErr StoreError "disk full")
     ∧ store (checkout (cart [item "P1" 1]) failing_write_world).2
       = store failing_write_world).
Proof.
  split.
  - apply (proj1 (@checkout_store_failure plain_builtins bare_host
                    (cart [item "P1" 1]) unreachable_world "connection refused") []).
    + discriminate.
    + reflexivity.
  - eapply (proj2 (@checkout_store_failure plain_builtins bare_host
                     (cart [item "P1" 1]) failing_write_world "disk full") []).
    + reflexivity.
    + reflexivity.
    + vm_compute. reflexivity.
    + vm_compute. reflexivity.
Defined.

(** The quantities 1 and -1 of P1 sum to 0: a validation error. *)
Lemma checkout_rejects_zero_sum :
  (checkout (cart [item "P1" 1; item "P1" (-1)]) (world_with [P1])).1
  = Raise (PyErr ValidationError "validation error for Order")
  ∧ store (checkout (cart [item "P1" 1; item "P1" (-1)]) (world_with [P1])).2
    = store (world_with [P1]).
Proof.
  eapply (@checkout_validation_error plain_builtins bare_host
            (cart [item "P1" 1; item "P1" (-1)]) (world_with [P1])).
  - reflexivity.
  - intros msg. vm_compute. discriminate.
  - vm_compute. reflexivity.
  - left. vm_compute. reflexivity.
Defined.

(** Seeding an empty reachable store. *)
Lemma seeding_empty_store :
  product_summary <$> collection (ensure_sample_products (world_with [])).2 "product"
  = [ (Some (VOid "oid0"), Some (VStr "Citrus Bloom"), Some (VInt 5900));
      (Some (VOid "oid1"), Some (VStr "Amber Dusk"), Some (VInt 7200));
      (Some (VOid "oid2"), Some (VStr "Verdant Mist"), Some (VInt 6400)) ].
Proof.
  apply (ensure_sample_products_seeds (world_with [])).
  - vm_compute. reflexivity.
  - unfold calls_succeed. vm_compute. constructor.
Defined.


(** A handle whose name cannot be read. *)
Lemma test_database_with_flaky_handle :
  test_database (host := flaky_host)
  = Ok {| backend := "✅ Running";
          database := "❌ Error: handle closed";
          database_url := Some "✅ Set";
          database_name := None;
          connection_status := "Not Connected";
          collections := [] |}.
Proof.
  exact (proj1 (@test_database_partial_report flaky_host _ eq_refl) _ eq_refl).
Defined.

(** The lead "ada" on an unreachable store, and with a base64 credential. *)
Lemma create_lead_on_unreachable_store :
  (create_lead (builtins := plain_builtins) (host := sheets_host) ada unreachable_world).1
  = Raise (HTTPException 500 "Database error: connection refused")
  ∧ store (create_lead (builtins := plain_builtins) (host := sheets_host) ada
             unreachable_world).2
    = store unreachable_world.
Proof.
  exact (proj1 (@create_lead_outcomes plain_builtins sheets_host ada unreachable_world)
           "connection refused" [] eq_refl).
Defined.

(** Truncation counts characters: the check mark is one character of
    three bytes. *)
Lemma str_take_counts_characters :
  str_take 2 "✅ Running" = "✅ "
  ∧ str_take 3 "abcdef" = "abc"
  ∧ str_take 80 "handle closed" = "handle closed".
Proof. split_and!; vm_compute; reflexivity. Qed.

Lemma append_lead_with_base64_credential :
  append_lead_to_google_sheets (builtins := plain_builtins) (host := base64_host) ada
  = Ok (Some "Leads!A2:F2").
Proof.
  apply (proj2 (@append_lead_reports_range plain_builtins base64_host ada "Leads!A2:F2")).
  exists "sheet-1", "e30=", "{}", "{}", tt, (VStr "Leads!A2:F2").
  split_and!; try discriminate; vm_compute; reflexivity.
Defined.
End MoreRuns.
